(** * Road dashboard backend: CSV ingestion and query API

    A shallow embedding of [server.js] and [database/migrate_data.js]:
    the JavaScript primitives the code relies on ([parseInt],
    [parseFloat], truthiness, [||]), the per-row cleaning of the CSV
    importer, the transactional bulk load, and the request handlers of
    the HTTP API.

    A CSV file is the list of the records that [csv-parser] emits for
    it, ended by ['end'] or by an ['error'] of the parser; a file that
    cannot be read at all is kept apart ([Files]).  The database is one
    connection with the rows of
    [road_segments]; its checks on inserted values, its reading of text
    parameters and the order in which it scans a table are parameters of
    the definitions.  Strings are sequences of bytes.  Console output is
    left out. *)

From Stdlib Require Import ZArith Bool Ascii String List Lia DecimalString.
From stdpp Require Import base option list gmap strings pretty.

Local Open Scope string_scope.

(** ** JavaScript primitives *)

Module JS.

(** A JavaScript number as the code can obtain one from text: not a
    number, an infinity, or the decimal [m * 10^e] that was read.  The
    value is kept as written; the only effect of the rounding to binary64
    that the code observes is whether the number is zero, and [is_zero]
    accounts for it (a decimal of magnitude at most [2^-1075] rounds to
    zero). *)
Inductive number : Type :=
  | NaN
  | Infinity (negative : bool)
  | Dec (m e : Z).

Definition zero : number := Dec 0 0.

Definition of_Z (z : Z) : number := Dec z 0.

Definition is_zero (m e : Z) : bool :=
  (m =? 0)%Z || ((e <? 0)%Z && (Z.abs m * 2 ^ 1075 <=? 10 ^ (- e))%Z).

(** ToBoolean on numbers: [NaN], [+0] and [-0] are falsy. *)
Definition truthy (n : number) : bool :=
  match n with
  | NaN => false
  | Infinity _ => true
  | Dec m e => negb (is_zero m e)
  end.

(** ToBoolean on strings: only the empty string is falsy. *)
Definition truthy_str (s : string) : bool :=
  match s with
  | EmptyString => false
  | String _ _ => true
  end.

(** [n || d] on numbers. *)
Definition or_num (n d : number) : number := if truthy n then n else d.

(** [n || null]: [None] stands for [null]. *)
Definition or_null (n : number) : option number :=
  if truthy n then Some n else None.

(** [v || d] where [v] is a string or [undefined] ([None]). *)
Definition or_str (v : option string) (d : string) : string :=
  match v with
  | Some s => if truthy_str s then s else d
  | None => d
  end.

(** ToString of a string or [undefined]. *)
Definition to_string (v : option string) : string :=
  match v with
  | Some s => s
  | None => "undefined"
  end.

(** The white space and line terminators of one byte: TAB, LF, VT, FF,
    CR and SP. *)
Definition is_space (c : ascii) : bool :=
  let n := nat_of_ascii c in
  (n =? 9)%nat || (n =? 10)%nat || (n =? 11)%nat || (n =? 12)%nat
  || (n =? 13)%nat || (n =? 32)%nat.

(** U+00A0 in UTF-8. *)
Definition is_space2 (a b : ascii) : bool :=
  (nat_of_ascii a =? 194)%nat && (nat_of_ascii b =? 160)%nat.

(** The white space of three bytes in UTF-8: U+1680, U+2000 to U+200A,
    U+2028, U+2029, U+202F, U+205F, U+3000 and U+FEFF. *)
Definition is_space3 (a b c : ascii) : bool :=
  let a := nat_of_ascii a in
  let b := nat_of_ascii b in
  let c := nat_of_ascii c in
  ((a =? 225) && (b =? 154) && (c =? 128))%nat
  || ((a =? 226) && (b =? 128)
      && (((128 <=? c) && (c <=? 138)) || (c =? 168) || (c =? 169)
          || (c =? 175)))%nat
  || ((a =? 226) && (b =? 129) && (c =? 159))%nat
  || ((a =? 227) && (b =? 128) && (c =? 128))%nat
  || ((a =? 239) && (b =? 187) && (c =? 191))%nat.

(** The string without its leading white space and line terminators
    (the text of a cell is the UTF-8 of the file). *)
Fixpoint trim_start (s : string) : string :=
  match s with
  | String c r =>
      if is_space c then trim_start r
      else
        match r with
        | String c2 r2 =>
            if is_space2 c c2 then trim_start r2
            else
              match r2 with
              | String c3 r3 =>
                  if is_space3 c c2 c3 then trim_start r3 else s
              | EmptyString => s
              end
        | EmptyString => s
        end
  | EmptyString => s
  end.

(** Value of a digit in the given radix, if it is one. *)
Definition digit_of (radix : Z) (c : ascii) : option Z :=
  let n := Z.of_nat (nat_of_ascii c) in
  let v :=
    if ((48 <=? n) && (n <=? 57))%Z then Some (n - 48)%Z
    else if ((97 <=? n) && (n <=? 122))%Z then Some (n - 87)%Z
    else if ((65 <=? n) && (n <=? 90))%Z then Some (n - 55)%Z
    else None in
  match v with
  | Some d => if (d <? radix)%Z then Some d else None
  | None => None
  end.

(** The longest prefix of digits: how many there are, their value after
    [acc], and the rest of the string. *)
Fixpoint read_digits (radix : Z) (s : string) (acc : Z) (count : nat)
  : Z * nat * string :=
  match s with
  | String c r =>
      match digit_of radix c with
      | Some d => read_digits radix r (radix * acc + d)%Z (S count)
      | None => (acc, count, s)
      end
  | EmptyString => (acc, count, s)
  end.

(** An optional sign: whether it is a minus, and the rest. *)
Definition read_sign (s : string) : bool * string :=
  match s with
  | String "-" r => (true, r)
  | String "+" r => (false, r)
  | _ => (false, s)
  end.

Definition strip_hex (s : string) : option string :=
  match s with
  | String "0" (String "x" r) => Some r
  | String "0" (String "X" r) => Some r
  | _ => None
  end.

(** The binary64 number nearest to a non-negative integer: the integer
    rounded to 53 significant bits, ties to even. *)
Definition round53 (v : Z) : Z :=
  let k := (Z.log2 v + 1 - 53)%Z in
  if (k <=? 0)%Z then v
  else
    let q := (v / 2 ^ k)%Z in
    let r := (v mod 2 ^ k)%Z in
    let half := (2 ^ (k - 1))%Z in
    let up := (half <? r)%Z || ((r =? half)%Z && Z.odd q) in
    ((if up then q + 1 else q) * 2 ^ k)%Z.

(** The number of an integer literal with its sign. *)
Definition of_integer (neg : bool) (v : Z) : number :=
  let r := round53 v in
  if (2 ^ 1024 <=? r)%Z then Infinity neg
  else Dec (if neg then (- r)%Z else r) 0.

(** [parseInt(s)] with no radix argument. *)
Definition parseInt_str (s : string) : number :=
  let '(neg, s1) := read_sign (trim_start s) in
  let '(radix, s2) :=
    match strip_hex s1 with
    | Some r => (16%Z, r)
    | None => (10%Z, s1)
    end in
  let '(v, count, _) := read_digits radix s2 0 0 in
  match count with
  | O => NaN
  | S _ => of_integer neg v
  end.

Definition parseInt (v : option string) : number := parseInt_str (to_string v).

Fixpoint strip_prefix (p s : string) : option string :=
  match p, s with
  | EmptyString, _ => Some s
  | String a p', String b s' =>
      if Ascii.eqb a b then strip_prefix p' s' else None
  | String _ _, EmptyString => None
  end.

(** The exponent part of a decimal literal, zero when there is none. *)
Definition read_exponent (s : string) : Z :=
  match s with
  | String c r =>
      if Ascii.eqb c "e" || Ascii.eqb c "E" then
        let '(neg, r1) := read_sign r in
        let '(v, count, _) := read_digits 10 r1 0 0 in
        match count with
        | O => 0%Z
        | S _ => if neg then (- v)%Z else v
        end
      else 0%Z
  | EmptyString => 0%Z
  end.

(** [parseFloat(s)]: the longest prefix that is a decimal literal. *)
Definition parseFloat_str (s : string) : number :=
  let '(neg, s1) := read_sign (trim_start s) in
  match strip_prefix "Infinity" s1 with
  | Some _ => Infinity neg
  | None =>
      let '(ip, icount, r1) := read_digits 10 s1 0 0 in
      let '(m, fcount, r2) :=
        match r1 with
        | String "." r => read_digits 10 r ip 0
        | _ => (ip, O, r1)
        end in
      match (icount + fcount)%nat with
      | O => NaN
      | S _ =>
          Dec (if neg then (- m)%Z else m)
              (read_exponent r2 - Z.of_nat fcount)
      end
  end.

Definition parseFloat (v : option string) : number :=
  parseFloat_str (to_string v).

End JS.

(** ** Cleaning of CSV records

    [csv-parser] hands each record to the ['data'] callback as an object
    from header names to strings; a header with no cell in the record is
    [undefined] there.  The callback is the same text in [server.js] and
    in [database/migrate_data.js] up to the test that guards
    [results.push]. *)

Module Csv.

Import JS.

(** The object built for one record. *)
Record clean_row : Type := {
  objectid : option number;
  st_rt_no : string;
  cty_code : string;
  district_no : string;
  seg_no : string;
  seg_lngth_feet : number;
  fac_type : string;
  surf_type : string;
  lane_cnt : number;
  total_width : number;
  rough_indx : number;
  frictn_coeff : number;
  pvmnt_cond_rate : string;
  cur_aadt : number;
  street_name : string;
  traf_rt_no : string;
  x_value_bgn : number;
  y_value_bgn : number;
  x_value_end : number;
  y_value_end : number;
  segment_miles : number;
  lane_miles : number;
  iri_rating_text : string;
  opi_rating_text : string;
  surface_year : number;
  urban_rural : string;
  nhs_ind : string
}.

Definition cleanData (data : gmap string string) : clean_row := {|
  objectid := or_null (parseInt (data !! "OBJECTID"));
  st_rt_no := or_str (data !! "ST_RT_NO") EmptyString;
  cty_code := or_str (data !! "CTY_CODE") EmptyString;
  district_no := or_str (data !! "DISTRICT_NO") EmptyString;
  seg_no := or_str (data !! "SEG_NO") EmptyString;
  seg_lngth_feet := or_num (parseFloat (data !! "SEG_LNGTH_FEET")) zero;
  fac_type := or_str (data !! "FAC_TYPE") EmptyString;
  surf_type := or_str (data !! "SURF_TYPE") EmptyString;
  lane_cnt := or_num (parseInt (data !! "LANE_CNT")) zero;
  total_width := or_num (parseFloat (data !! "TOTAL_WIDTH")) zero;
  rough_indx := or_num (parseFloat (data !! "ROUGH_INDX")) zero;
  frictn_coeff := or_num (parseFloat (data !! "FRICTN_COEFF")) zero;
  pvmnt_cond_rate := or_str (data !! "PVMNT_COND_RATE") EmptyString;
  cur_aadt := or_num (parseInt (data !! "CUR_AADT")) zero;
  street_name := or_str (data !! "STREET_NAME") EmptyString;
  traf_rt_no := or_str (data !! "TRAF_RT_NO") EmptyString;
  x_value_bgn := or_num (parseFloat (data !! "X_VALUE_BGN")) zero;
  y_value_bgn := or_num (parseFloat (data !! "Y_VALUE_BGN")) zero;
  x_value_end := or_num (parseFloat (data !! "X_VALUE_END")) zero;
  y_value_end := or_num (parseFloat (data !! "Y_VALUE_END")) zero;
  segment_miles := or_num (parseFloat (data !! "SEGMENT_MILES")) zero;
  lane_miles := or_num (parseFloat (data !! "LANE_MILES")) zero;
  iri_rating_text := or_str (data !! "IRI_RATING_TEXT") EmptyString;
  opi_rating_text := or_str (data !! "OPI_RATING_TEXT") EmptyString;
  surface_year := or_num (parseInt (data !! "SURFACE_YEAR")) zero;
  urban_rural := or_str (data !! "URBAN_RURAL") EmptyString;
  nhs_ind := or_str (data !! "NHS_IND") EmptyString
|}.

(** The expected columns, with the conversion the callback applies to
    each and the property of the cleaned object it fills. *)
Inductive column : Type :=
  | OBJECTID
  | ST_RT_NO
  | CTY_CODE
  | DISTRICT_NO
  | SEG_NO
  | SEG_LNGTH_FEET
  | FAC_TYPE
  | SURF_TYPE
  | LANE_CNT
  | TOTAL_WIDTH
  | ROUGH_INDX
  | FRICTN_COEFF
  | PVMNT_COND_RATE
  | CUR_AADT
  | STREET_NAME
  | TRAF_RT_NO
  | X_VALUE_BGN
  | Y_VALUE_BGN
  | X_VALUE_END
  | Y_VALUE_END
  | SEGMENT_MILES
  | LANE_MILES
  | IRI_RATING_TEXT
  | OPI_RATING_TEXT
  | SURFACE_YEAR
  | URBAN_RURAL
  | NHS_IND.

Inductive kind : Type := IntCol | FloatCol | StrCol.

Definition kind_of (c : column) : kind :=
  match c with
  | OBJECTID | LANE_CNT | CUR_AADT | SURFACE_YEAR => IntCol
  | SEG_LNGTH_FEET | TOTAL_WIDTH | ROUGH_INDX | FRICTN_COEFF | X_VALUE_BGN | Y_VALUE_BGN | X_VALUE_END | Y_VALUE_END | SEGMENT_MILES | LANE_MILES => FloatCol
  | ST_RT_NO | CTY_CODE | DISTRICT_NO | SEG_NO | FAC_TYPE | SURF_TYPE | PVMNT_COND_RATE | STREET_NAME | TRAF_RT_NO | IRI_RATING_TEXT | OPI_RATING_TEXT | URBAN_RURAL | NHS_IND => StrCol
  end.

Definition header (c : column) : string :=
  match c with
  | OBJECTID => "OBJECTID"
  | ST_RT_NO => "ST_RT_NO"
  | CTY_CODE => "CTY_CODE"
  | DISTRICT_NO => "DISTRICT_NO"
  | SEG_NO => "SEG_NO"
  | SEG_LNGTH_FEET => "SEG_LNGTH_FEET"
  | FAC_TYPE => "FAC_TYPE"
  | SURF_TYPE => "SURF_TYPE"
  | LANE_CNT => "LANE_CNT"
  | TOTAL_WIDTH => "TOTAL_WIDTH"
  | ROUGH_INDX => "ROUGH_INDX"
  | FRICTN_COEFF => "FRICTN_COEFF"
  | PVMNT_COND_RATE => "PVMNT_COND_RATE"
  | CUR_AADT => "CUR_AADT"
  | STREET_NAME => "STREET_NAME"
  | TRAF_RT_NO => "TRAF_RT_NO"
  | X_VALUE_BGN => "X_VALUE_BGN"
  | Y_VALUE_BGN => "Y_VALUE_BGN"
  | X_VALUE_END => "X_VALUE_END"
  | Y_VALUE_END => "Y_VALUE_END"
  | SEGMENT_MILES => "SEGMENT_MILES"
  | LANE_MILES => "LANE_MILES"
  | IRI_RATING_TEXT => "IRI_RATING_TEXT"
  | OPI_RATING_TEXT => "OPI_RATING_TEXT"
  | SURFACE_YEAR => "SURFACE_YEAR"
  | URBAN_RURAL => "URBAN_RURAL"
  | NHS_IND => "NHS_IND"
  end.

(** A property value of the cleaned object. *)
Inductive value : Type :=
  | VNull
  | VNum (n : number)
  | VStr (s : string).

Definition field (c : column) (r : clean_row) : value :=
  match c with
  | OBJECTID => match objectid r with Some n => VNum n | None => VNull end
  | ST_RT_NO => VStr (st_rt_no r)
  | CTY_CODE => VStr (cty_code r)
  | DISTRICT_NO => VStr (district_no r)
  | SEG_NO => VStr (seg_no r)
  | SEG_LNGTH_FEET => VNum (seg_lngth_feet r)
  | FAC_TYPE => VStr (fac_type r)
  | SURF_TYPE => VStr (surf_type r)
  | LANE_CNT => VNum (lane_cnt r)
  | TOTAL_WIDTH => VNum (total_width r)
  | ROUGH_INDX => VNum (rough_indx r)
  | FRICTN_COEFF => VNum (frictn_coeff r)
  | PVMNT_COND_RATE => VStr (pvmnt_cond_rate r)
  | CUR_AADT => VNum (cur_aadt r)
  | STREET_NAME => VStr (street_name r)
  | TRAF_RT_NO => VStr (traf_rt_no r)
  | X_VALUE_BGN => VNum (x_value_bgn r)
  | Y_VALUE_BGN => VNum (y_value_bgn r)
  | X_VALUE_END => VNum (x_value_end r)
  | Y_VALUE_END => VNum (y_value_end r)
  | SEGMENT_MILES => VNum (segment_miles r)
  | LANE_MILES => VNum (lane_miles r)
  | IRI_RATING_TEXT => VStr (iri_rating_text r)
  | OPI_RATING_TEXT => VStr (opi_rating_text r)
  | SURFACE_YEAR => VNum (surface_year r)
  | URBAN_RURAL => VStr (urban_rural r)
  | NHS_IND => VStr (nhs_ind r)
  end.

(** What the conversion of a numeric column reads from the cell. *)
Definition parsed (c : column) (cell : option string) : number :=
  match kind_of c with
  | IntCol => parseInt cell
  | FloatCol => parseFloat cell
  | StrCol => NaN
  end.

(** A cell that the conversion of its column cannot read: no number in
    a numeric column, no cell at all in a text column. *)
Definition unreadable (data : gmap string string) (c : column) : Prop :=
  match kind_of c with
  | StrCol => data !! header c = None
  | _ => parsed c (data !! header c) = NaN
  end.

(** The right operand of [||] in the line of the column. *)
Definition default_of (c : column) : value :=
  match c with
  | OBJECTID => VNull
  | _ =>
      match kind_of c with
      | StrCol => VStr EmptyString
      | _ => VNum zero
      end
  end.

(** The cleaning as the specification words it: an unreadable numeric
    cell becomes zero and a missing text cell the empty string. *)
Definition zero_or_empty (c : column) : value :=
  match kind_of c with
  | StrCol => VStr EmptyString
  | _ => VNum zero
  end.

(** The events of the parser stream [fs.createReadStream(filePath)
    .pipe(csv())] that [processCSV] listens to: the records of the
    ['data'] events, then ['end'], or an ['error'] of the parser.  An
    ['error'] of the file stream itself is not among them ([pipe] does
    not forward it): see [Files]. *)
Record csv_stream : Type := {
  records : list (gmap string string);
  failure : option string
}.

Inductive promise (A : Type) : Type :=
  | Resolved (a : A)
  | Rejected (reason : string).
Arguments Resolved {A} a.
Arguments Rejected {A} reason.

(** The ['data'] callback: [results.push(cleanData)] under the guard. *)
Definition on_data (keep : clean_row -> bool)
    (results : list clean_row) (data : gmap string string) : list clean_row :=
  let cleanData := cleanData data in
  if keep cleanData then results ++ [cleanData] else results.

Definition processCSV_with (keep : clean_row -> bool) (file : csv_stream)
  : promise (list clean_row) :=
  let results := fold_left (on_data keep) (records file) [] in
  match failure file with
  | None => Resolved results
  | Some reason => Rejected reason
  end.

End Csv.

(** ** The database connection and the bulk load *)

Module Db.

Import JS Csv.

(** [row.name] on the cleaned object, for a property name of the source:
    [undefined] ([None]) when the object has no such property. *)
Definition property_column (name : string) : option column :=
  match name with
  | "objectid" => Some OBJECTID
  | "st_rt_no" => Some ST_RT_NO
  | "cty_code" => Some CTY_CODE
  | "district_no" => Some DISTRICT_NO
  | "seg_no" => Some SEG_NO
  | "seg_lngth_feet" => Some SEG_LNGTH_FEET
  | "fac_type" => Some FAC_TYPE
  | "surf_type" => Some SURF_TYPE
  | "lane_cnt" => Some LANE_CNT
  | "total_width" => Some TOTAL_WIDTH
  | "rough_indx" => Some ROUGH_INDX
  | "frictn_coeff" => Some FRICTN_COEFF
  | "pvmnt_cond_rate" => Some PVMNT_COND_RATE
  | "cur_aadt" => Some CUR_AADT
  | "street_name" => Some STREET_NAME
  | "traf_rt_no" => Some TRAF_RT_NO
  | "x_value_bgn" => Some X_VALUE_BGN
  | "y_value_bgn" => Some Y_VALUE_BGN
  | "x_value_end" => Some X_VALUE_END
  | "y_value_end" => Some Y_VALUE_END
  | "segment_miles" => Some SEGMENT_MILES
  | "lane_miles" => Some LANE_MILES
  | "iri_rating_text" => Some IRI_RATING_TEXT
  | "opi_rating_text" => Some OPI_RATING_TEXT
  | "surface_year" => Some SURFACE_YEAR
  | "urban_rural" => Some URBAN_RURAL
  | "nhs_ind" => Some NHS_IND
  | _ => None
  end.

Definition property (row : clean_row) (name : string) : option value :=
  match property_column name with
  | Some c => Some (field c row)
  | None => None
  end.

Definition truthy_value (v : value) : bool :=
  match v with
  | VNull => false
  | VNum n => truthy n
  | VStr s => truthy_str s
  end.

(** [v || ''] *)
Definition or_empty (v : option value) : value :=
  match v with
  | Some x => if truthy_value x then x else VStr EmptyString
  | None => VStr EmptyString
  end.

(** The keys of the object passed to [JSON.stringify] in
    [insertRoadData], in the order of the source; each is filled with
    [row.key || '']. *)
Definition additional_keys : list string :=
  ["bike_lane"; "yr_built"; "yr_resurf"; "dir_ind"; "park_lane";
   "divsr_type"; "divsr_width"; "cond_date"; "frictn_indx"; "frictn_date";
   "access_ctrl"; "toll_code"; "traf_rt_no_prefix"; "traf_rt_no_suf";
   "bgn_desc"; "end_desc"; "maint_respon_ind"; "nhs_ind"; "tandem_trlr_trk";
   "access_tandem_trlr"; "interst_netwrk_ind"; "nhpn_ind"; "norm_admin_bgn";
   "norm_traff_bgn"; "norm_shld_bgn"; "mapid"; "nlf_id"; "side_ind";
   "nlf_cntl_bgn"; "nlf_cntl_end"; "cum_offset_bgn_t1"; "cum_offset_end_t1";
   "graphic_length"; "key_update"; "attr_update"; "overall_pvmnt_idx";
   "seg_status"; "pavmt_cycle"; "drain_cycle"; "gdrail_cycle";
   "district_special"; "trt_type_netwrk"; "pa_byway_ind"; "street_name2";
   "traf_rt_no_prefix2"; "traf_rt_no2"; "traf_rt_no_suf2"; "street_name3";
   "traf_rt_no_prefix3"; "traf_rt_no3"; "traf_rt_no_suf3"; "trxn_flag";
   "route_dir"; "bus_plan_netwrk"; "exp_way_netwrk"; "hpms_samp_cnt";
   "mile_point"; "is_structure"; "govt_lvl_ctrl"; "hov_type"; "hov_lanes";
   "par_seg_ind"; "hpms_divsr_type"; "iri_cur_flag"; "drain_swt";
   "gdrail_swt"; "pavmt_swt"; "shld_cond_status"; "fed_aid_prim_ind";
   "drain_cnt"; "gdrail_cnt"; "pvmnt_trtmt_data"; "pvmnt_ind"; "iri_year";
   "opi_year"; "surface_year"; "cycle_maint_section"; "gis_update_date";
   "gis_geometry_update_date"; "se_anno_cad_data"; "geometry"; "gpid";
   "geometrylen"].

Definition additional_attrs_of (row : clean_row) : list (string * value) :=
  map (fun key => (key, or_empty (property row key))) additional_keys.

(** The values of one [INSERT INTO road_segments]: the 27 parameters of
    both loaders and, in [insertRoadData] only, the additional
    attributes ([$28]). *)
Record insert_values : Type := {
  params : clean_row;
  additional : option (list (string * value))
}.

(** A stored row: the generated [id] and the values it was inserted
    with; [start_point] is [(x_value_bgn, y_value_bgn)] and [end_point]
    is [(x_value_end, y_value_end)] of [params].  The row keeps the
    values as they were passed: the conversion to the type of a column
    (a [DECIMAL(n,2)] column rounds to two decimals) is not applied, so
    the statements on a load are about the values given to its
    [INSERT]s. *)
Record segment : Type := {
  id : Z;
  stored : insert_values
}.

Definition attrs (s : segment) : clean_row := params (stored s).

(** What one connection sees: the rows of [road_segments], the next
    value of the [id] sequence, and inside a transaction the rows as
    they were at [BEGIN]. *)
Record state : Type := {
  road_segments : list segment;
  next_id : Z;
  snapshot : option (list segment)
}.

(** What the other connections see. *)
Definition committed (st : state) : list segment :=
  match snapshot st with
  | Some before => before
  | None => road_segments st
  end.

Inductive result (A : Type) : Type :=
  | Ok (a : A)
  | Throw (error : string)
  | Timeout.
Arguments Ok {A} a.
Arguments Throw {A} error.
Arguments Timeout {A}.

(** Asynchronous code over the connection: state passing with thrown
    errors.  [Timeout] is the outcome of a loop that ran out of fuel. *)
Definition M (A : Type) : Type := state -> result A * state.

Definition ret {A} (a : A) : M A := fun st => (Ok a, st).

Definition throw {A} (error : string) : M A := fun st => (Throw error, st).

Definition timeout {A} : M A := fun st => (Timeout, st).

Definition bind {A B} (c : M A) (k : A -> M B) : M B := fun st =>
  match c st with
  | (Ok a, st') => k a st'
  | (Throw error, st') => (Throw error, st')
  | (Timeout, st') => (Timeout, st')
  end.

Declare Scope db_scope.
Delimit Scope db_scope with db.
Notation "x <- c ;; k" := (bind c (fun x => k))
  (at level 100, c at next level, right associativity) : db_scope.
Notation "c ;; k" := (bind c (fun _ => k))
  (at level 100, right associativity) : db_scope.
Local Open Scope db_scope.

(** [try { body } catch (error) { handler error }] *)
Definition try_catch {A} (body : M A) (handler : string -> M A) : M A :=
  fun st =>
    match body st with
    | (Throw error, st') => handler error st'
    | other => other
    end.

(** [try { body } finally { cleanup }] *)
Definition try_finally {A} (body : M A) (cleanup : M unit) : M A :=
  fun st =>
    let '(r, st') := body st in
    match cleanup st' with
    | (Ok _, st'') => (r, st'')
    | (Throw error, st'') => (Throw error, st'')
    | (Timeout, st'') => (Timeout, st'')
    end.

(** [await p] *)
Definition await {A} (p : promise A) : M A :=
  match p with
  | Resolved a => ret a
  | Rejected reason => throw reason
  end.

Fixpoint for_each {A} (f : A -> M unit) (l : list A) : M unit :=
  match l with
  | [] => ret tt
  | x :: rest => f x ;; for_each f rest
  end.

(** [l.slice(i, j)] for [i <= j]. *)
Definition slice {A} (i j : nat) (l : list A) : list A :=
  firstn (j - i) (skipn i l).

Inductive statement : Type :=
  | BEGIN
  | DELETE_FROM_road_segments
  | INSERT_INTO_road_segments (v : insert_values)
  | COMMIT
  | ROLLBACK.

Section Connection.

(** The database's check of the values of an [INSERT] against the
    column types of [road_segments]: the error it raises, if any.  The
    other statements of the load are not refused. *)
Variable rejects : insert_values -> option string.

(** [client.query(statement)] *)
Definition client_query (s : statement) : M unit := fun st =>
  match s with
  | BEGIN =>
      (Ok tt,
       match snapshot st with
       | None => {| road_segments := road_segments st;
                    next_id := next_id st;
                    snapshot := Some (road_segments st) |}
       | Some _ => st
       end)
  | DELETE_FROM_road_segments =>
      (Ok tt, {| road_segments := [];
                 next_id := next_id st;
                 snapshot := snapshot st |})
  | INSERT_INTO_road_segments v =>
      match rejects v with
      | Some error => (Throw error, st)
      | None =>
          (Ok tt,
           {| road_segments :=
                road_segments st ++ [{| id := next_id st; stored := v |}];
              next_id := (next_id st + 1)%Z;
              snapshot := snapshot st |})
      end
  | COMMIT =>
      (Ok tt, {| road_segments := road_segments st;
                 next_id := next_id st;
                 snapshot := None |})
  | ROLLBACK =>
      (Ok tt,
       match snapshot st with
       | Some before => {| road_segments := before;
                           next_id := next_id st;
                           snapshot := None |}
       | None => st
       end)
  end.

Definition batchSize : nat := 1000.

(** [for (let i = 0; i < data.length; i += batchSize)] over
    [data.slice(i, i + batchSize)], with [insert] on each row of the
    batch. *)
Fixpoint batches (insert : clean_row -> M unit)
    (fuel i : nat) (data : list clean_row) : M unit :=
  match fuel with
  | O => timeout
  | S fuel' =>
      if (i <? length data)%nat then
        for_each insert (slice i (i + batchSize) data) ;;
        batches insert fuel' (i + batchSize) data
      else ret tt
  end.

(** The transaction both loaders run on their connection:
    [try { BEGIN; DELETE; inserts; COMMIT } catch (error) { ROLLBACK;
    throw error } finally { client.release() }]. *)
Definition load_transaction (values_of : clean_row -> insert_values)
    (data : list clean_row) : M unit :=
  try_finally
    (try_catch
       (client_query BEGIN ;;
        client_query DELETE_FROM_road_segments ;;
        batches (fun row => client_query (INSERT_INTO_road_segments (values_of row)))
                (S (length data)) 0 data ;;
        client_query COMMIT)
       (fun error => client_query ROLLBACK ;; throw error))
    (ret tt).

(** What the inserts of a load leave behind: the rows accepted before
    the first rejected one, with that rejection, and the rows stored
    for them under consecutive ids. *)
Fixpoint accepted_prefix (values_of : clean_row -> insert_values)
    (rows : list clean_row) : list clean_row * option string :=
  match rows with
  | [] => ([], None)
  | row :: rest =>
      match rejects (values_of row) with
      | Some error => ([], Some error)
      | None =>
          let '(accepted, rejection) := accepted_prefix values_of rest in
          (row :: accepted, rejection)
      end
  end.

Fixpoint numbered (values_of : clean_row -> insert_values)
    (first : Z) (rows : list clean_row) : list segment :=
  match rows with
  | [] => []
  | row :: rest =>
      {| id := first; stored := values_of row |}
      :: numbered values_of (first + 1)%Z rest
  end.

Definition append_rows (values_of : clean_row -> insert_values)
    (rows : list clean_row) (st : state) : state :=
  {| road_segments :=
       road_segments st ++ numbered values_of (next_id st) rows;
     next_id := (next_id st + Z.of_nat (length rows))%Z;
     snapshot := snapshot st |}.

End Connection.

End Db.

(** ** Values in queries *)

Module Sql.

Import JS Csv.

(** The order of the database on numeric values: minus infinity, the
    finite values, infinity, then not-a-number. *)
Definition rank (n : number) : Z :=
  match n with
  | Infinity true => 0
  | Dec _ _ => 1
  | Infinity false => 2
  | NaN => 3
  end.

Definition compare (a b : number) : comparison :=
  match a, b with
  | Dec m1 e1, Dec m2 e2 =>
      let e := Z.min e1 e2 in
      (m1 * 10 ^ (e1 - e) ?= m2 * 10 ^ (e2 - e))%Z
  | _, _ => (rank a ?= rank b)%Z
  end.

Definition le (a b : number) : bool :=
  match compare a b with
  | Gt => false
  | _ => true
  end.

Definition lt (a b : number) : bool :=
  match compare a b with
  | Lt => true
  | _ => false
  end.

Definition eq (a b : number) : bool :=
  match compare a b with
  | Eq => true
  | _ => false
  end.

(** [a - b] on finite values. *)
Definition sub (a b : number) : number :=
  match a, b with
  | Dec m1 e1, Dec m2 e2 =>
      let e := Z.min e1 e2 in
      Dec (m1 * 10 ^ (e1 - e) - m2 * 10 ^ (e2 - e)) e
  | _, _ => NaN
  end.

(** A number passed for [LIMIT] or [OFFSET]: the database takes a
    [bigint] that is not negative. *)
Definition row_count (n : number) : option nat :=
  match n with
  | Dec z 0 =>
      if ((0 <=? z) && (z <? 2 ^ 63))%Z then Some (Z.to_nat z) else None
  | _ => None
  end.

(** The column name of a property. *)
Definition name (c : column) : string :=
  match c with
  | OBJECTID => "objectid"
  | ST_RT_NO => "st_rt_no"
  | CTY_CODE => "cty_code"
  | DISTRICT_NO => "district_no"
  | SEG_NO => "seg_no"
  | SEG_LNGTH_FEET => "seg_lngth_feet"
  | FAC_TYPE => "fac_type"
  | SURF_TYPE => "surf_type"
  | LANE_CNT => "lane_cnt"
  | TOTAL_WIDTH => "total_width"
  | ROUGH_INDX => "rough_indx"
  | FRICTN_COEFF => "frictn_coeff"
  | PVMNT_COND_RATE => "pvmnt_cond_rate"
  | CUR_AADT => "cur_aadt"
  | STREET_NAME => "street_name"
  | TRAF_RT_NO => "traf_rt_no"
  | X_VALUE_BGN => "x_value_bgn"
  | Y_VALUE_BGN => "y_value_bgn"
  | X_VALUE_END => "x_value_end"
  | Y_VALUE_END => "y_value_end"
  | SEGMENT_MILES => "segment_miles"
  | LANE_MILES => "lane_miles"
  | IRI_RATING_TEXT => "iri_rating_text"
  | OPI_RATING_TEXT => "opi_rating_text"
  | SURFACE_YEAR => "surface_year"
  | URBAN_RURAL => "urban_rural"
  | NHS_IND => "nhs_ind"
  end.

End Sql.

(** ** Requests *)

Module Req.

(** A value of [req.query]: a string, or an array of strings when the
    key is repeated.  (Nested objects, which the parser builds for keys
    written with brackets, are left out.) *)
Inductive qval : Type :=
  | QStr (s : string)
  | QArr (l : list string).

(** ToBoolean: an array is truthy. *)
Definition truthy (v : qval) : bool :=
  match v with
  | QStr s => JS.truthy_str s
  | QArr _ => true
  end.

(** ToString: an array is joined with commas. *)
Definition to_string (v : qval) : string :=
  match v with
  | QStr s => s
  | QArr l => String.concat "," l
  end.

(** [v === s] for a string literal [s]. *)
Definition strict_eq (v : qval) (s : string) : bool :=
  match v with
  | QStr x => String.eqb x s
  | QArr _ => false
  end.

(** A heat-map type that none of the [case] labels is strictly equal
    to. *)
Definition unknown_type (type : qval) : Prop :=
  strict_eq type "condition" = false
  /\ strict_eq type "traffic" = false
  /\ strict_eq type "age" = false.

Record roads : Type := {
  fac_type : option qval;
  surf_type : option qval;
  district_no : option qval;
  urban_rural : option qval;
  min_condition : option qval;
  max_condition : option qval;
  limit : option qval;
  offset : option qval
}.

Record heatmap : Type := {
  type : option qval;
  data_source : option qval
}.

End Req.

(** ** [database/migrate_data.js] *)

Module Migrate.

Import JS Csv Db.
Local Open Scope db_scope.

(** The guard of [results.push] in [processCSV]. *)
Definition keep (cleanData : clean_row) : bool :=
  truthy (x_value_bgn cleanData) && truthy (y_value_bgn cleanData)
  && truthy (x_value_end cleanData) && truthy (y_value_end cleanData).

Definition processCSV : csv_stream -> promise (list clean_row) :=
  processCSV_with keep.

Definition values (row : clean_row) : insert_values :=
  {| params := row; additional := Some (additional_attrs_of row) |}.

Inductive termination : Type :=
  | Completed
  | Exit (code : Z).

Section Script.

Variable rejects : insert_values -> option string.

Definition insertRoadData (data : list clean_row) : M unit :=
  load_transaction rejects values data.

(** [migrateData], given the CSV file if it exists.  The refresh of the
    materialized view does not touch [road_segments]. *)
Definition migrateData (csv : option csv_stream) : M termination :=
  try_catch
    (match csv with
     | None => throw "CSV file not found"
     | Some file =>
         data <- await (processCSV file) ;;
         insertRoadData data ;;
         ret Completed
     end)
    (fun error => ret (Exit 1)).

End Script.

End Migrate.

(** ** [server.js] *)

Module Server.

Import JS Csv Db.
Local Open Scope db_scope.

(** The guard of [results.push] in [processCSV]. *)
Definition keep (cleanData : clean_row) : bool :=
  truthy (x_value_bgn cleanData) && truthy (y_value_bgn cleanData).

Definition processCSV : csv_stream -> promise (list clean_row) :=
  processCSV_with keep.

Definition values (row : clean_row) : insert_values :=
  {| params := row; additional := None |}.

(** A row object of a query result. *)
Definition json_row : Type := list (string * value).

Inductive body : Type :=
  | Error (message : string)
  | Message (message : string)
  | Statistics (results : gmap string (list json_row)).

Record response (B : Type) : Type := {
  status : Z;
  json : B
}.
Arguments status {B} r.
Arguments json {B} r.

Definition show (n : nat) : string := NilEmpty.string_of_uint (Nat.to_uint n).

(** The names bound where the handlers run: the top-level declarations
    of [server.js] and the globals of the runtime that the file uses. *)
Definition scope : list string :=
  ["express"; "csv"; "fs"; "Pool"; "cors"; "multer"; "chokidar"; "path";
   "app"; "PORT"; "dbConfig"; "pool"; "processCSV"; "loadCSVData";
   "upload"; "require"; "process"; "console"; "Promise"; "Math";
   "parseInt"; "parseFloat"].

(** Evaluating an identifier: a [ReferenceError] when it is unbound. *)
Definition identifier (name : string) : M unit :=
  if existsb (String.eqb name) scope then ret tt
  else throw (name ++ " is not defined").

Definition statistics_queries : list (string * string) :=
  [("total_segments", "SELECT COUNT(*) as count FROM road_segments");
   ("total_miles", "SELECT SUM(segment_miles) as total FROM road_segments");
   ("by_fac_type",
    "SELECT fac_type, COUNT(*) as count FROM road_segments GROUP BY fac_type");
   ("by_surf_type",
    "SELECT surf_type, COUNT(*) as count FROM road_segments GROUP BY surf_type");
   ("by_condition",
    "SELECT iri_rating_text, COUNT(*) as count FROM road_segments WHERE iri_rating_text != '' GROUP BY iri_rating_text");
   ("by_district",
    "SELECT district_no, COUNT(*) as count FROM road_segments GROUP BY district_no")].

Section Loading.

Variable rejects : insert_values -> option string.

(** [loadCSVData], given the CSV file if [fs.existsSync] finds it. *)
Definition loadCSVData (csv : option csv_stream) : M unit :=
  try_catch
    (match csv with
     | Some file =>
         data <- await (processCSV file) ;;
         load_transaction rejects values data
     | None => ret tt
     end)
    (fun error => ret tt).

(** [POST /api/upload], given [req.file] as the stream of the uploaded
    file.  After [processCSV] the handler evaluates [db.run(...)]; what
    follows is written as the statements it names, each on its own. *)
Definition upload (file : option csv_stream) : M (response body) :=
  try_catch
    (match file with
     | None => ret {| status := 400; json := Error "No file uploaded" |}
     | Some f =>
         data <- await (processCSV f) ;;
         identifier "db" ;;
         client_query rejects DELETE_FROM_road_segments ;;
         identifier "db" ;;
         for_each
           (fun row => client_query rejects (INSERT_INTO_road_segments (values row)))
           data ;;
         ret {| status := 200;
                json := Message ("Successfully loaded " ++ show (length data)
                                 ++ " road segments") |}
     end)
    (fun error => ret {| status := 500; json := Error error |}).

End Loading.

Section Statistics.

(** [pool.query(query)] for the statistics queries: the rows, or the
    error of the database. *)
Variable pool_query : string -> promise (list json_row).

(** The value stored under a key. *)
Definition rows_or_empty (query : string) : list json_row :=
  match pool_query query with
  | Resolved rows => rows
  | Rejected _ => []
  end.

Definition statistics_step (results : gmap string (list json_row))
    (entry : string * string) : gmap string (list json_row) :=
  let '(key, query) := entry in
  match pool_query query with
  | Resolved rows => <[key := rows]> results
  | Rejected _ => <[key := []]> results
  end.

(** [GET /api/statistics]: the loop over [Object.entries(queries)].  The
    rejections of [pool.query] are taken by the inner [catch], and no
    other statement of the outer [try] block throws. *)
Definition statistics : response body :=
  {| status := 200;
     json := Statistics (fold_left statistics_step statistics_queries ∅) |}.

End Statistics.

(** *** [GET /api/roads] *)

(** A value pushed to [params]. *)
Inductive pvalue : Type :=
  | PQuery (v : Req.qval)
  | PNumber (n : number).

Record builder : Type := {
  query : string;
  params : list pvalue;
  paramCount : nat
}.

Definition select_roads : string := "
    SELECT 
      id, objectid, st_rt_no, cty_code, district_no, seg_no, seg_lngth_feet,
      fac_type, surf_type, lane_cnt, total_width, rough_indx, frictn_coeff,
      pvmnt_cond_rate, cur_aadt, street_name, traf_rt_no,
      ST_X(start_point) as x_value_bgn, ST_Y(start_point) as y_value_bgn,
      ST_X(end_point) as x_value_end, ST_Y(end_point) as y_value_end,
      segment_miles, lane_miles, iri_rating_text, opi_rating_text,
      surface_year, urban_rural, nhs_ind
    FROM road_segments 
    WHERE 1=1
  ".

(** [if (v) { query += clause + `$${++paramCount}`; params.push(v); }] *)
Definition filter_clause (v : option Req.qval) (clause : string) (b : builder)
  : builder :=
  match v with
  | Some x =>
      if Req.truthy x then
        {| query := query b ++ clause ++ show (S (paramCount b));
           params := params b ++ [PQuery x];
           paramCount := S (paramCount b) |}
      else b
  | None => b
  end.

(** A query parameter with a default, as text: [parseInt] reads the
    ToString of its argument, and that of the default number is its
    decimal notation. *)
Definition text_or (default : string) (v : option Req.qval) : string :=
  match v with
  | Some x => Req.to_string x
  | None => default
  end.

(** The query text and the parameters that the handler passes to
    [pool.query]. *)
Definition roads_query (q : Req.roads) : builder :=
  let b := {| query := select_roads; params := []; paramCount := 0 |} in
  let b := filter_clause (Req.fac_type q) " AND fac_type = $" b in
  let b := filter_clause (Req.surf_type q) " AND surf_type = $" b in
  let b := filter_clause (Req.district_no q) " AND district_no = $" b in
  let b := filter_clause (Req.urban_rural q) " AND urban_rural = $" b in
  let b := filter_clause (Req.min_condition q) " AND rough_indx >= $" b in
  let b := filter_clause (Req.max_condition q) " AND rough_indx <= $" b in
  {| query := query b ++ " LIMIT $" ++ show (S (paramCount b))
              ++ " OFFSET $" ++ show (S (S (paramCount b)));
     params := params b
               ++ [PNumber (parseInt_str (text_or "10000" (Req.limit q)));
                   PNumber (parseInt_str (text_or "0" (Req.offset q)))];
     paramCount := S (S (paramCount b)) |}.

(** The same query as a term: the conditions of the [WHERE] clause with
    the values bound to them, and the two row counts. *)
Inductive comparison_op : Type := OpEq | OpGe | OpLe.

Record condition : Type := {
  on : column;
  op : comparison_op;
  bound : Req.qval
}.

Record select : Type := {
  conditions : list condition;
  limit : number;
  offset : number
}.

Definition op_text (o : comparison_op) : string :=
  match o with
  | OpEq => " = $"
  | OpGe => " >= $"
  | OpLe => " <= $"
  end.

(** The text and parameters of a [select], numbering the placeholders
    from [n + 1]. *)
Fixpoint write_conditions (cs : list condition) (n : nat) : string :=
  match cs with
  | [] => EmptyString
  | c :: rest =>
      " AND " ++ Sql.name (on c) ++ op_text (op c) ++ show (S n)
      ++ write_conditions rest (S n)
  end.

Definition write_select (s : select) : builder :=
  let n := length (conditions s) in
  {| query := select_roads ++ write_conditions (conditions s) 0
              ++ " LIMIT $" ++ show (S n) ++ " OFFSET $" ++ show (S (S n));
     params := map (fun c => PQuery (bound c)) (conditions s)
               ++ [PNumber (limit s); PNumber (offset s)];
     paramCount := S (S n) |}.

(** A builder that holds the text and the parameters of the conditions
    [cs], written from the first placeholder. *)
Definition holds (b : builder) (cs : list condition) : Prop :=
  query b = select_roads ++ write_conditions cs 0
  /\ params b = map (fun c => PQuery (bound c)) cs
  /\ paramCount b = length cs.

Definition supplied (c : column) (o : comparison_op) (v : option Req.qval)
  : list condition :=
  match v with
  | Some x => if Req.truthy x then [{| on := c; op := o; bound := x |}] else []
  | None => []
  end.

Definition roads_select (q : Req.roads) : select :=
  {| conditions :=
       supplied FAC_TYPE OpEq (Req.fac_type q)
       ++ supplied SURF_TYPE OpEq (Req.surf_type q)
       ++ supplied DISTRICT_NO OpEq (Req.district_no q)
       ++ supplied URBAN_RURAL OpEq (Req.urban_rural q)
       ++ supplied ROUGH_INDX OpGe (Req.min_condition q)
       ++ supplied ROUGH_INDX OpLe (Req.max_condition q);
     limit := parseInt_str (text_or "10000" (Req.limit q));
     offset := parseInt_str (text_or "0" (Req.offset q)) |}.

Section Queries.

(** How the database reads a text parameter as a numeric value, and the
    text in which the driver sends an array. *)
Variable numeric_in : string -> option number.
Variable array_text : list string -> string.

(** The failure of the connection, if it is down. *)
Variable connection_error : option string.

Definition sent (v : Req.qval) : string :=
  match v with
  | Req.QStr s => s
  | Req.QArr l => array_text l
  end.

Definition holds_op (o : comparison_op) (x bound : number) : bool :=
  match o with
  | OpEq => Sql.eq x bound
  | OpGe => Sql.le bound x
  | OpLe => Sql.le x bound
  end.

(** A condition with its parameter read at the type of the column: the
    test on a row, or nothing when the parameter is not a value of that
    type. *)
Definition bind_condition (c : condition) : option (clean_row -> bool) :=
  match kind_of (on c) with
  | StrCol =>
      Some (fun row =>
              match field (on c) row, op c with
              | VStr s, OpEq => String.eqb s (sent (bound c))
              | VStr s, OpGe => negb (String.ltb s (sent (bound c)))
              | VStr s, OpLe => negb (String.ltb (sent (bound c)) s)
              | _, _ => false
              end)
  | _ =>
      match numeric_in (sent (bound c)) with
      | Some n =>
          Some (fun row =>
                  match field (on c) row with
                  | VNum x => holds_op (op c) x n
                  | _ => false
                  end)
      | None => None
      end
  end.

Fixpoint bind_conditions (cs : list condition)
  : option (list (clean_row -> bool)) :=
  match cs with
  | [] => Some []
  | c :: rest =>
      match bind_condition c, bind_conditions rest with
      | Some p, Some ps => Some (p :: ps)
      | _, _ => None
      end
  end.

Definition satisfies (tests : list (clean_row -> bool)) (s : segment) : bool :=
  forallb (fun test => test (attrs s)) tests.

(** [pool.query] on a [select], over the rows of [road_segments] in the
    order in which the database scans them (the query has no
    [ORDER BY]). *)
Definition run_select (s : select) (table : list segment)
  : promise (list segment) :=
  match connection_error with
  | Some error => Rejected error
  | None =>
      match bind_conditions (conditions s),
            Sql.row_count (limit s), Sql.row_count (offset s) with
      | Some tests, Some l, Some o =>
          Resolved (firstn l (skipn o (List.filter (satisfies tests) table)))
      | None, _, _ => Rejected "invalid input syntax for type numeric"
      | _, _, _ => Rejected "invalid row count"
      end
  end.

(** The filters as the specification words them: each filter that is
    supplied holds on the row. *)
Definition is_value (v : option Req.qval) (x : string) : Prop :=
  match v with
  | Some b => Req.truthy b = true -> x = sent b
  | None => True
  end.

Definition at_least (v : option Req.qval) (x : number) : Prop :=
  match v with
  | Some b =>
      Req.truthy b = true ->
      exists n, numeric_in (sent b) = Some n /\ Sql.le n x = true
  | None => True
  end.

Definition at_most (v : option Req.qval) (x : number) : Prop :=
  match v with
  | Some b =>
      Req.truthy b = true ->
      exists n, numeric_in (sent b) = Some n /\ Sql.le x n = true
  | None => True
  end.

Definition meets (q : Req.roads) (row : clean_row) : Prop :=
  is_value (Req.fac_type q) (Csv.fac_type row)
  /\ is_value (Req.surf_type q) (Csv.surf_type row)
  /\ is_value (Req.district_no q) (Csv.district_no row)
  /\ is_value (Req.urban_rural q) (Csv.urban_rural row)
  /\ at_least (Req.min_condition q) (Csv.rough_indx row)
  /\ at_most (Req.max_condition q) (Csv.rough_indx row).

(** A bound that the database can read as a number, when supplied. *)
Definition numeric_bound (v : option Req.qval) : Prop :=
  match v with
  | Some b => Req.truthy b = true -> is_Some (numeric_in (sent b))
  | None => True
  end.

(** The handler: [pool.query(query, params)] on the text and parameters
    of [roads_query], which are those that [roads_select] writes. *)
Definition roads (q : Req.roads) (st : state)
  : response (list segment + string) :=
  match run_select (roads_select q) (committed st) with
  | Resolved rows => {| status := 200; json := inl rows |}
  | Rejected error => {| status := 500; json := inr error |}
  end.

(** *** [GET /api/heatmap] *)

Definition osm_condition : string :=
  "SELECT ST_X(ST_StartPoint(geom)) as x_value_bgn, ST_Y(ST_StartPoint(geom)) as y_value_bgn, length_meters as value FROM osm_roads WHERE length_meters > 0 AND state = 'PA'".
Definition osm_traffic : string :=
  "SELECT ST_X(ST_StartPoint(geom)) as x_value_bgn, ST_Y(ST_StartPoint(geom)) as y_value_bgn, COALESCE(lanes, 1) as value FROM osm_roads WHERE state = 'PA'".
Definition osm_age : string :=
  "SELECT ST_X(ST_StartPoint(geom)) as x_value_bgn, ST_Y(ST_StartPoint(geom)) as y_value_bgn, length_meters as value FROM osm_roads WHERE state = 'PA'".
Definition csv_condition : string :=
  "SELECT ST_X(start_point) as x_value_bgn, ST_Y(start_point) as y_value_bgn, rough_indx as value FROM road_segments WHERE rough_indx > 0".
Definition csv_traffic : string :=
  "SELECT ST_X(start_point) as x_value_bgn, ST_Y(start_point) as y_value_bgn, cur_aadt as value FROM road_segments WHERE cur_aadt > 0".
Definition csv_age : string :=
  "SELECT ST_X(start_point) as x_value_bgn, ST_Y(start_point) as y_value_bgn, (EXTRACT(YEAR FROM CURRENT_DATE) - surface_year) as value FROM road_segments WHERE surface_year > 0".

(** [type] and [data_source] after the defaults of the destructuring. *)
Definition or_default (v : option Req.qval) (default : string) : Req.qval :=
  match v with
  | Some x => x
  | None => Req.QStr default
  end.

(** The query text chosen by the two [switch] statements. *)
Definition heatmap_query (q : Req.heatmap) : string :=
  let type := or_default (Req.type q) "condition" in
  let data_source := or_default (Req.data_source q) "csv" in
  if Req.strict_eq data_source "osm" then
    if Req.strict_eq type "condition" then osm_condition
    else if Req.strict_eq type "traffic" then osm_traffic
    else if Req.strict_eq type "age" then osm_age
    else osm_condition
  else
    if Req.strict_eq type "condition" then csv_condition
    else if Req.strict_eq type "traffic" then csv_traffic
    else if Req.strict_eq type "age" then csv_age
    else csv_condition.

(** A row of [osm_roads], as far as the heat map reads it: the start of
    the line, and three columns, each possibly [NULL]. *)
Record osm_road : Type := {
  start_point : option (number * number);
  length_meters : option number;
  lanes : option number;
  state_code : option string
}.

(** The heat-map queries as terms. *)
Inductive osm_value : Type := LengthMeters | LanesOrOne.

Inductive heat_select : Type :=
  | FromOsm (value : osm_value) (positive_length : bool)
  | FromSegments (c : column) (years_since : bool).

Definition write_heat (h : heat_select) : string :=
  match h with
  | FromOsm v positive =>
      "SELECT ST_X(ST_StartPoint(geom)) as x_value_bgn, ST_Y(ST_StartPoint(geom)) as y_value_bgn, "
      ++ match v with
         | LengthMeters => "length_meters"
         | LanesOrOne => "COALESCE(lanes, 1)"
         end
      ++ " as value FROM osm_roads WHERE "
      ++ (if positive then "length_meters > 0 AND " else EmptyString)
      ++ "state = 'PA'"
  | FromSegments c years =>
      "SELECT ST_X(start_point) as x_value_bgn, ST_Y(start_point) as y_value_bgn, "
      ++ (if years then "(EXTRACT(YEAR FROM CURRENT_DATE) - " ++ Sql.name c ++ ")"
          else Sql.name c)
      ++ " as value FROM road_segments WHERE " ++ Sql.name c ++ " > 0"
  end.

Definition heatmap_select (q : Req.heatmap) : heat_select :=
  let type := or_default (Req.type q) "condition" in
  let data_source := or_default (Req.data_source q) "csv" in
  if Req.strict_eq data_source "osm" then
    if Req.strict_eq type "condition" then FromOsm LengthMeters true
    else if Req.strict_eq type "traffic" then FromOsm LanesOrOne false
    else if Req.strict_eq type "age" then FromOsm LengthMeters false
    else FromOsm LengthMeters true
  else
    if Req.strict_eq type "condition" then FromSegments ROUGH_INDX false
    else if Req.strict_eq type "traffic" then FromSegments CUR_AADT false
    else if Req.strict_eq type "age" then FromSegments SURFACE_YEAR true
    else FromSegments ROUGH_INDX false.

(** A row of the heat-map result; [None] is [NULL]. *)
Record heat_point : Type := {
  x_value_bgn : option number;
  y_value_bgn : option number;
  value : option number
}.

Definition numeric (v : Csv.value) : option number :=
  match v with
  | VNum n => Some n
  | _ => None
  end.

Definition positive (v : option number) : bool :=
  match v with
  | Some n => Sql.lt zero n
  | None => false
  end.

Definition in_PA (r : osm_road) : bool :=
  match state_code r with
  | Some s => String.eqb s "PA"
  | None => false
  end.

Definition osm_point (v : osm_value) (r : osm_road) : heat_point :=
  {| x_value_bgn := fst <$> start_point r;
     y_value_bgn := snd <$> start_point r;
     value := match v with
              | LengthMeters => length_meters r
              | LanesOrOne =>
                  match lanes r with
                  | Some n => Some n
                  | None => Some (of_Z 1)
                  end
              end |}.

Definition segment_point (current_year : Z) (c : column) (years : bool)
    (s : segment) : heat_point :=
  {| x_value_bgn := Some (Csv.x_value_bgn (attrs s));
     y_value_bgn := Some (Csv.y_value_bgn (attrs s));
     value := (fun n => if years then Sql.sub (of_Z current_year) n else n)
              <$> numeric (field c (attrs s)) |}.

(** [pool.query] on a heat-map query, in the year [current_year]. *)
Definition run_heat (current_year : Z) (h : heat_select)
    (table : list segment) (osm_roads : list osm_road)
  : promise (list heat_point) :=
  match connection_error with
  | Some error => Rejected error
  | None =>
      Resolved
        match h with
        | FromOsm v positive_length =>
            map (osm_point v)
                (List.filter (fun r => (negb positive_length
                                   || positive (length_meters r))
                                  && in_PA r)
                        osm_roads)
        | FromSegments c years =>
            map (segment_point current_year c years)
                (List.filter (fun s => positive (numeric (field c (attrs s))))
                        table)
        end
  end.

Definition heatmap (current_year : Z) (q : Req.heatmap) (st : state)
    (osm_roads : list osm_road) : response (list heat_point + string) :=
  match run_heat current_year (heatmap_select q) (committed st) osm_roads with
  | Resolved rows => {| status := 200; json := inl rows |}
  | Rejected error => {| status := 500; json := inr error |}
  end.

End Queries.

End Server.

(** ** The file behind the parser stream *)

Module Files.

Import Csv Db.

(** What [fs.createReadStream(filePath).pipe(csv())] is for a path: the
    events of the parser stream, or an ['error'] of the file stream
    itself (the path is a directory, the file may not be read).
    [processCSV] attaches its listeners, [reject] among them, to the
    parser stream only, and [pipe] does not forward an ['error']. *)
Inductive source : Type :=
  | Parsed (stream : csv_stream)
  | ReadError (error : string).

(** A call that runs to its end, or the process ended by an ['error']
    event that has no listener, which Node throws as an uncaught
    exception: the promise of [processCSV] is then never settled, and
    nothing after its [await] is run. *)
Inductive run (A : Type) : Type :=
  | Ends (a : A)
  | Uncaught (error : string).
Arguments Ends {A} a.
Arguments Uncaught {A} error.

(** [processCSV(filePath)] under the guard [keep]. *)
Definition processCSV (keep : clean_row -> bool) (file : source)
  : run (promise (list clean_row)) :=
  match file with
  | Parsed stream => Ends (processCSV_with keep stream)
  | ReadError error => Uncaught error
  end.

(** [loadCSVData] of [server.js], given the file at the path if
    [fs.existsSync] finds one: [processCSV] is awaited before the
    connection is taken. *)
Definition loadCSVData (rejects : insert_values -> option string)
    (csv : option source) (st : state) : run (result unit * state) :=
  match csv with
  | None => Ends (Server.loadCSVData rejects None st)
  | Some (Parsed stream) => Ends (Server.loadCSVData rejects (Some stream) st)
  | Some (ReadError error) => Uncaught error
  end.

End Files.

(** ** [server.js]: [GET /api/osm-roads] *)

Module OsmApi.

Import JS.

Record request : Type := {
  highway : option Req.qval;
  state : option Req.qval;
  limit : option Req.qval;
  offset : option Req.qval
}.

Definition select_osm_roads : string := "
    SELECT 
      id, osm_id, name, highway, surface, maxspeed, lanes, width,
      oneway, bridge, tunnel, access, ref, operator, network,
      state, county, city, length_meters,
      ST_X(ST_StartPoint(geom)) as x_value_bgn, ST_Y(ST_StartPoint(geom)) as y_value_bgn,
      ST_X(ST_EndPoint(geom)) as x_value_end, ST_Y(ST_EndPoint(geom)) as y_value_end,
      geom
    FROM osm_roads 
    WHERE state = $1
  ".

(** The query text and the parameters that the handler passes to
    [pool.query]: [state] takes its default only when it is absent, and
    [highway] adds a condition only when it is truthy. *)
Definition osm_roads_query (q : request) : Server.builder :=
  let state := Server.or_default (state q) "PA" in
  let b := {| Server.query := select_osm_roads;
              Server.params := [Server.PQuery state];
              Server.paramCount := 1 |} in
  let b := Server.filter_clause (highway q) " AND highway = $" b in
  {| Server.query :=
       Server.query b ++ " LIMIT $" ++ Server.show (S (Server.paramCount b))
       ++ " OFFSET $" ++ Server.show (S (S (Server.paramCount b)));
     Server.params :=
       Server.params b
       ++ [Server.PNumber (parseInt_str (Server.text_or "10000" (limit q)));
           Server.PNumber (parseInt_str (Server.text_or "0" (offset q)))];
     Server.paramCount := S (S (Server.paramCount b)) |}.

(** A row of [osm_roads], as far as the handler and the map read it:
    the columns of the heat map, the [highway] tag and the end of the
    line. *)
Record osm_row : Type := {
  road : Server.osm_road;
  highway_tag : option string;
  end_point : option (number * number)
}.

(** The same query as a term: the value compared with [state], the
    value compared with [highway] if there is one, and the two row
    counts. *)
Record select : Type := {
  in_state : Req.qval;
  of_highway : option Req.qval;
  row_limit : number;
  row_offset : number
}.

Definition osm_roads_select (q : request) : select :=
  {| in_state := Server.or_default (state q) "PA";
     of_highway :=
       match highway q with
       | Some x => if Req.truthy x then Some x else None
       | None => None
       end;
     row_limit := parseInt_str (Server.text_or "10000" (limit q));
     row_offset := parseInt_str (Server.text_or "0" (offset q)) |}.

Definition write_select (s : select) : Server.builder :=
  match of_highway s with
  | Some h =>
      {| Server.query :=
           select_osm_roads ++ " AND highway = $2 LIMIT $3 OFFSET $4";
         Server.params :=
           [Server.PQuery (in_state s); Server.PQuery h;
            Server.PNumber (row_limit s); Server.PNumber (row_offset s)];
         Server.paramCount := 4 |}
  | None =>
      {| Server.query := select_osm_roads ++ " LIMIT $2 OFFSET $3";
         Server.params :=
           [Server.PQuery (in_state s);
            Server.PNumber (row_limit s); Server.PNumber (row_offset s)];
         Server.paramCount := 3 |}
  end.

Section Queries.

Variable array_text : list string -> string.
Variable connection_error : option string.

(** [column = $n] on a character column that may be [NULL]. *)
Definition text_is (column : option string) (v : Req.qval) : bool :=
  match column with
  | Some s => String.eqb s (Server.sent array_text v)
  | None => false
  end.

Definition matches (s : select) (r : osm_row) : bool :=
  text_is (Server.state_code (road r)) (in_state s)
  && match of_highway s with
     | Some h => text_is (highway_tag r) h
     | None => true
     end.

(** [pool.query] on a [select], over the rows of [osm_roads] in the
    order in which the database scans them. *)
Definition run_select (s : select) (table : list osm_row)
  : Csv.promise (list osm_row) :=
  match connection_error with
  | Some error => Csv.Rejected error
  | None =>
      match Sql.row_count (row_limit s), Sql.row_count (row_offset s) with
      | Some l, Some o =>
          Csv.Resolved (firstn l (skipn o (List.filter (matches s) table)))
      | _, _ => Csv.Rejected "invalid row count"
      end
  end.

(** The handler. *)
Definition osm_roads (q : request) (table : list osm_row)
  : Server.response (list osm_row + string) :=
  match run_select (osm_roads_select q) table with
  | Csv.Resolved rows => {| Server.status := 200; Server.json := inl rows |}
  | Csv.Rejected error => {| Server.status := 500; Server.json := inr error |}
  end.

End Queries.

End OsmApi.

(** ** [src/components/MapComponent.js] *)

Module Client.

Import JS.

(** A property of a row object that holds a character column of the
    database: absent from the object, [null], or a string. *)
Inductive text : Type :=
  | Undefined
  | Null
  | Str (s : string).

Definition truthy_text (v : text) : bool :=
  match v with
  | Str s => truthy_str s
  | _ => false
  end.

(** [v === s] for a string literal [s]; the [case] labels of a
    [switch] compare in this way. *)
Definition equals (v : text) (s : string) : bool :=
  match v with
  | Str x => String.eqb x s
  | _ => false
  end.

Definition getRoadClassificationColor (facType surfType highway : text)
  : string :=
  if truthy_text highway then
    if equals highway "motorway" || equals highway "motorway_link" then "#0066cc"
    else if equals highway "trunk" || equals highway "trunk_link" then "#00aa00"
    else if equals highway "primary" || equals highway "primary_link" then "#ffaa00"
    else if equals highway "secondary" || equals highway "secondary_link"
         then "#9966cc"
    else if equals highway "tertiary" || equals highway "tertiary_link" then "#ff6666"
    else if equals highway "residential" || equals highway "unclassified"
         then "#888888"
    else "#666666"
  else if equals facType "1" then "#0066cc"
  else if equals facType "2" then "#00aa00"
  else if equals facType "3" then "#ffaa00"
  else if equals facType "4" then "#9966cc"
  else if equals facType "5" then "#ff6666"
  else if equals surfType "52" then "#00aa00"
  else if equals surfType "61" then "#0066cc"
  else if equals surfType "62" then "#ffaa00"
  else "#888888".

(** The colours of the legend. *)
Definition legend : list string :=
  ["#0066cc"; "#00aa00"; "#ffaa00"; "#9966cc"; "#ff6666"; "#888888"].

(** The property key of a value: its ToString. *)
Definition key_of (v : text) : string :=
  match v with
  | Undefined => "undefined"
  | Null => "null"
  | Str s => s
  end.

(** The properties that an object literal inherits from
    [Object.prototype]; each is a function or an object. *)
Definition object_prototype : list string :=
  ["constructor"; "hasOwnProperty"; "isPrototypeOf"; "propertyIsEnumerable";
   "toLocaleString"; "toString"; "valueOf"; "__proto__";
   "__defineGetter__"; "__defineSetter__"; "__lookupGetter__";
   "__lookupSetter__"].

(** What an expression of a popup evaluates to: a string, or an
    inherited member of an object. *)
Inductive shown : Type :=
  | Text (s : string)
  | Member (name : string).

Definition truthy_shown (v : shown) : bool :=
  match v with
  | Text s => truthy_str s
  | Member _ => true
  end.

Fixpoint own (entries : list (string * string)) (key : string)
  : option string :=
  match entries with
  | [] => None
  | (k, v) :: rest => if String.eqb k key then Some v else own rest key
  end.

(** [types[key] || 'Unknown'] on an object literal with the given
    entries. *)
Definition name_in (types : list (string * string)) (key : string) : shown :=
  match own types key with
  | Some v => if truthy_str v then Text v else Text "Unknown"
  | None =>
      if existsb (String.eqb key) object_prototype then Member key
      else Text "Unknown"
  end.

Definition getFacilityTypeName (facType : text) : shown :=
  name_in [("1", "Interstate"); ("2", "US Route"); ("3", "State Route");
           ("4", "County Route"); ("5", "Local Road")]
          (key_of facType).

Definition getSurfaceTypeName (surfType : text) : shown :=
  name_in [("52", "Asphalt"); ("61", "Concrete"); ("62", "Composite");
           ("63", "Gravel"); ("64", "Dirt")]
          (key_of surfType).

(** [a || b || 'N/A'] *)
Definition or_else (a : shown) (b : text) : shown :=
  if truthy_shown a then a
  else match b with
       | Str s => if truthy_str s then Text s else Text "N/A"
       | _ => Text "N/A"
       end.

(** The lines of the popup for the facility type and the surface
    type. *)
Definition facility_line (fac_type highway : text) : shown :=
  or_else (getFacilityTypeName fac_type) highway.

Definition surface_line (surf_type surface : text) : shown :=
  or_else (getSurfaceTypeName surf_type) surface.

(** A decimal that is an infinity as a binary64 number: its magnitude
    reaches [2^1024 - 2^970]. *)
Definition overflows (m e : Z) : bool :=
  let bound := (2 ^ 1024 - 2 ^ 970)%Z in
  if (0 <=? e)%Z then (bound <=? Z.abs m * 10 ^ e)%Z
  else (bound * 10 ^ (- e) <=? Z.abs m)%Z.

(** A number of a query result as the client receives it: [res.json]
    writes [null] for a number that is not finite. *)
Definition received (n : number) : option number :=
  match n with
  | Dec m e => if overflows m e then None else Some n
  | _ => None
  end.

Definition truthy_number (v : option number) : bool :=
  match v with
  | Some n => truthy n
  | None => false
  end.

(** The guard of the callback of [roads.map] in [RoadLayer]: the road
    is drawn unless one of its four coordinates is falsy. *)
Definition draws (x_value_bgn y_value_bgn x_value_end y_value_end
                  : option number) : bool :=
  negb (negb (truthy_number x_value_bgn) || negb (truthy_number y_value_bgn)
        || negb (truthy_number x_value_end)
        || negb (truthy_number y_value_end)).

(** The guard on a row of [GET /api/roads]: its coordinates are the
    [ST_X] and [ST_Y] of the stored points. *)
Definition draws_segment (s : Db.segment) : bool :=
  draws (received (Csv.x_value_bgn (Db.attrs s)))
        (received (Csv.y_value_bgn (Db.attrs s)))
        (received (Csv.x_value_end (Db.attrs s)))
        (received (Csv.y_value_end (Db.attrs s))).

Definition finite (n : number) : bool :=
  match received n with
  | Some _ => true
  | None => false
  end.

End Client.

(** ** [database/import_pbf_node.js]: the block reader *)

Module Pbf.

(** ToInt32: the value of a bitwise operation. *)
Definition to_int32 (z : Z) : Z := ((z + 2 ^ 31) mod 2 ^ 32 - 2 ^ 31)%Z.

(** [a << s]: the shift count is taken modulo 32. *)
Definition shl (a s : Z) : Z := to_int32 (a * 2 ^ (s mod 32)).

Definition byte_value (b : Byte.byte) : Z := Z.of_N (Byte.to_N b).

(** The parser object: [nodes] and [ways] are created empty by the
    constructor, and no method of the class adds to them. *)
Record parser : Type := {
  buffer : list Byte.byte;
  position : nat;
  nodes : gmap Z unit;
  ways : list unit
}.

Definition at_position (p : parser) (position' : nat) : parser :=
  {| buffer := buffer p; position := position';
     nodes := nodes p; ways := ways p |}.

(** The loop of [readVarint] over the bytes from [position] on. *)
Fixpoint readVarint_loop (rest : list Byte.byte) (result shift : Z)
    (position : nat) : Z * nat :=
  match rest with
  | [] => (result, position)
  | b :: rest' =>
      let byte := byte_value b in
      let result := Z.lor result (shl (Z.land byte 127) shift) in
      if (Z.land byte 128 =? 0)%Z then (result, S position)
      else readVarint_loop rest' result (shift + 7) (S position)
  end.

Definition readVarint (p : parser) : Z * parser :=
  let '(result, position') :=
    readVarint_loop (skipn (position p) (buffer p)) 0 0 (position p) in
  (result, at_position p position').

(** [readBlock]: [None] is [null]. *)
Definition readBlock (p : parser) : option (list Byte.byte) * parser :=
  if (length (buffer p) <=? position p)%nat then (None, p)
  else
    let '(blockSize, p1) := readVarint p in
    if (blockSize <=? 0)%Z
       || (Z.of_nat (length (buffer p1))
           <? Z.of_nat (position p1) + blockSize)%Z
    then (None, p1)
    else
      let size := Z.to_nat blockSize in
      (Some (Db.slice (position p1) (position p1 + size) (buffer p1)),
       at_position p1 (position p1 + size)).

(** [processBlock]: its body is empty. *)
Definition processBlock (block : list Byte.byte) (p : parser) : parser := p.

(** The loop of [parse]; no statement of its [try] block throws.
    [None] is the outcome of a loop that ran out of fuel. *)
Fixpoint parse_loop (fuel : nat) (p : parser) : option parser :=
  match fuel with
  | O => None
  | S fuel' =>
      if (position p <? length (buffer p))%nat then
        let '(block, p') := readBlock p in
        parse_loop fuel'
          match block with
          | Some blockData => processBlock blockData p'
          | None => p'
          end
      else Some p
  end.

(** [parse], given the bytes of the file: the parser as it is when the
    loop ends, whose [nodes] and [ways] are returned. *)
Definition parse (file : list Byte.byte) : option parser :=
  parse_loop (S (length file))
    {| buffer := file; position := 0; nodes := ∅; ways := [] |}.

(** A varint: bytes with the high bit set, then one with it clear; and
    the number that its groups of seven bits write, least significant
    group first. *)
Fixpoint is_varint (bytes : list Byte.byte) : bool :=
  match bytes with
  | [] => false
  | [b] => (Z.land (byte_value b) 128 =? 0)%Z
  | b :: rest => negb (Z.land (byte_value b) 128 =? 0)%Z && is_varint rest
  end.

Fixpoint varint_value (bytes : list Byte.byte) : Z :=
  match bytes with
  | [] => 0
  | b :: rest => (Z.land (byte_value b) 127 + 128 * varint_value rest)%Z
  end.

End Pbf.

(** ** Sample data *)

Module Sample.

Import JS Csv Db.

(** The length limits of the character columns of [road_segments] in the
    schema: one check of the database on the values of an [INSERT]. *)
Definition too_long (limit : nat) (s : string) : bool :=
  (limit <? String.length s)%nat.

Definition varchar_rejects (v : insert_values) : option string :=
  let r := params v in
  if too_long 10 (st_rt_no r) || too_long 5 (cty_code r)
     || too_long 5 (district_no r) || too_long 10 (seg_no r)
     || too_long 5 (fac_type r) || too_long 5 (surf_type r)
     || too_long 10 (pvmnt_cond_rate r) || too_long 255 (street_name r)
     || too_long 20 (traf_rt_no r) || too_long 20 (iri_rating_text r)
     || too_long 20 (opi_rating_text r) || too_long 5 (urban_rural r)
     || too_long 5 (nhs_ind r)
  then Some "value too long for type character varying"
  else None.

Definition accepts_all (v : insert_values) : option string := None.

(** A record whose end point has a zero longitude. *)
Definition zero_end : gmap string string :=
  list_to_map
    [("OBJECTID", "17"); ("ST_RT_NO", "0022"); ("FAC_TYPE", "1");
     ("X_VALUE_BGN", "-77.0365"); ("Y_VALUE_BGN", "40.2732");
     ("X_VALUE_END", "0"); ("Y_VALUE_END", "40.2741")].

(** A record with both end points. *)
Definition complete : gmap string string :=
  list_to_map
    [("OBJECTID", "18"); ("ST_RT_NO", "0022"); ("FAC_TYPE", "1");
     ("SURF_TYPE", "52"); ("ROUGH_INDX", "95.5");
     ("X_VALUE_BGN", "-77.0365"); ("Y_VALUE_BGN", "40.2732");
     ("X_VALUE_END", "-77.0311"); ("Y_VALUE_END", "40.2741")].

(** A record whose route number does not fit its column. *)
Definition long_route : gmap string string :=
  list_to_map
    [("OBJECTID", "19"); ("ST_RT_NO", "00220022002"); ("FAC_TYPE", "2");
     ("X_VALUE_BGN", "-76.5"); ("Y_VALUE_BGN", "40.1");
     ("X_VALUE_END", "-76.4"); ("Y_VALUE_END", "40.2")].

(** A record whose object id is not a number. *)
Definition bad_objectid : gmap string string :=
  list_to_map [("OBJECTID", "abc"); ("LANE_CNT", "two")].

Definition file_of (rows : list (gmap string string)) : csv_stream :=
  {| records := rows; failure := None |}.

Definition empty : state :=
  {| road_segments := []; next_id := 1; snapshot := None |}.

(** A table with one row already stored. *)
Definition one_row : state :=
  {| road_segments := [{| id := 1; stored := Server.values (cleanData complete) |}];
     next_id := 2;
     snapshot := None |}.

(** The decimal notation as the numeric input of the database. *)
Definition decimal_in (s : string) : option number :=
  match parseFloat_str s with
  | NaN => None
  | n => Some n
  end.

(** The text of an array of one level, without quoting. *)
Definition braces (l : list string) : string :=
  "{" ++ String.concat "," l ++ "}".

(** [?fac_type=1&surf_type=52] *)
Definition two_filters : Req.roads :=
  {| Req.fac_type := Some (Req.QStr "1");
     Req.surf_type := Some (Req.QStr "52");
     Req.district_no := None;
     Req.urban_rural := None;
     Req.min_condition := None;
     Req.max_condition := None;
     Req.limit := None;
     Req.offset := None |}.

(** [?min_condition=90&limit=1&offset=1] *)
Definition second_page : Req.roads :=
  {| Req.fac_type := None;
     Req.surf_type := None;
     Req.district_no := None;
     Req.urban_rural := None;
     Req.min_condition := Some (Req.QStr "90");
     Req.max_condition := None;
     Req.limit := Some (Req.QStr "1");
     Req.offset := Some (Req.QStr "1") |}.

(** Three roads: one in the state with a length, one in the state with
    length zero, one elsewhere. *)
Definition osm_sample : list Server.osm_road :=
  [{| Server.start_point := Some (Dec (-770) (-1), Dec 402 (-1));
      Server.length_meters := Some (Dec 12050 (-2));
      Server.lanes := Some (of_Z 2);
      Server.state_code := Some "PA" |};
   {| Server.start_point := Some (Dec (-771) (-1), Dec 403 (-1));
      Server.length_meters := Some (Dec 0 (-2));
      Server.lanes := None;
      Server.state_code := Some "PA" |};
   {| Server.start_point := None;
      Server.length_meters := None;
      Server.lanes := None;
      Server.state_code := Some "NY" |}].

Definition heat_of (type data_source : string) : Req.heatmap :=
  {| Req.type := Some (Req.QStr type);
     Req.data_source := Some (Req.QStr data_source) |}.

(** [?limit=1] *)
Definition first_row : Req.roads :=
  {| Req.fac_type := None;
     Req.surf_type := None;
     Req.district_no := None;
     Req.urban_rural := None;
     Req.min_condition := None;
     Req.max_condition := None;
     Req.limit := Some (Req.QStr "1");
     Req.offset := None |}.

(** The same two rows, scanned in one order and in the other. *)
Definition scanned (rows : list segment) : state :=
  {| road_segments := rows; next_id := 3; snapshot := None |}.

Definition row_1 : segment :=
  {| id := 1; stored := Server.values (cleanData complete) |}.

Definition row_2 : segment :=
  {| id := 2; stored := Server.values (cleanData long_route) |}.

(** A table with three rows. *)
Definition three_rows : state :=
  {| road_segments :=
       [{| id := 1; stored := Server.values (cleanData complete) |};
        {| id := 2; stored := Server.values (cleanData zero_end) |};
        {| id := 3; stored := Server.values (cleanData complete) |}];
     next_id := 4;
     snapshot := None |}.

End Sample.

(** ** Further sample data *)

Module Cases.

Import JS Csv Db.

(** A record whose object id and lane count are zero. *)
Definition zeros : gmap string string :=
  list_to_map
    [("OBJECTID", "0"); ("LANE_CNT", "0"); ("NHS_IND", "Y");
     ("SURFACE_YEAR", "1998");
     ("X_VALUE_BGN", "-75.1"); ("Y_VALUE_BGN", "39.9");
     ("X_VALUE_END", "-75.2"); ("Y_VALUE_END", "40.0")].

(** A request without the filters that are falsy: the request that
    keeps only what [if (v)] lets through. *)
Definition given (v : option Req.qval) : option Req.qval :=
  match v with
  | Some x => if Req.truthy x then Some x else None
  | None => None
  end.

Definition without_empty (q : Req.roads) : Req.roads :=
  {| Req.fac_type := given (Req.fac_type q);
     Req.surf_type := given (Req.surf_type q);
     Req.district_no := given (Req.district_no q);
     Req.urban_rural := given (Req.urban_rural q);
     Req.min_condition := given (Req.min_condition q);
     Req.max_condition := given (Req.max_condition q);
     Req.limit := Req.limit q;
     Req.offset := Req.offset q |}.

(** Which filters of a request are supplied: the columns and operators
    of its conditions. *)
Definition shape (q : Req.roads) : list (column * Server.comparison_op) :=
  map (fun c => (Server.on c, Server.op c))
      (Server.conditions (Server.roads_select q)).

(** [?fac_type=1&surf_type=52] with other values. *)
Definition other_values : Req.roads :=
  {| Req.fac_type := Some (Req.QStr "1' OR '1'='1");
     Req.surf_type := Some (Req.QArr ["52"; "61"]);
     Req.district_no := None;
     Req.urban_rural := Some (Req.QStr EmptyString);
     Req.min_condition := None;
     Req.max_condition := None;
     Req.limit := Some (Req.QStr "5");
     Req.offset := None |}.

(** The table of the given rows, with no transaction open. *)
Definition table (rows : list segment) : state :=
  {| road_segments := rows; next_id := 1; snapshot := None |}.

(** A record whose roughness index and surface year cannot be read. *)
Definition unreadable_numbers : gmap string string :=
  list_to_map
    [("OBJECTID", "21"); ("ROUGH_INDX", "n/a"); ("SURFACE_YEAR", "unknown");
     ("X_VALUE_BGN", "-75.1"); ("Y_VALUE_BGN", "39.9");
     ("X_VALUE_END", "-75.2"); ("Y_VALUE_END", "40.0")].

(** The metric types of the heat map with the column each reads in
    [road_segments]. *)
Definition metrics : list (string * column) :=
  [("condition", ROUGH_INDX); ("traffic", CUR_AADT); ("age", SURFACE_YEAR)].


Definition osm_motorways : OsmApi.request :=
  {| OsmApi.highway := Some (Req.QStr "motorway");
     OsmApi.state := Some (Req.QStr "PA");
     OsmApi.limit := Some (Req.QStr "10"); OsmApi.offset := None |}.

(** The rows of [Sample.osm_sample] with their highway tags. *)
Definition osm_rows : list OsmApi.osm_row :=
  map (fun r => {| OsmApi.road := r;
                   OsmApi.highway_tag := Some "motorway";
                   OsmApi.end_point := Server.start_point r |})
      Sample.osm_sample.

(** The bytes of a file: a varint that writes 300, then a byte. *)
Definition three_bytes : list Byte.byte := [Byte.xac; Byte.x02; Byte.x07].

(** A file whose parser stream emits an ['error'] after one record. *)
Definition broken : csv_stream :=
  {| records := [Sample.complete]; failure := Some "parser error" |}.

(** A path at which a directory stands. *)
Definition directory : Files.source :=
  Files.ReadError "EISDIR: illegal operation on a directory, read".


End Cases.

(** * Properties

    ** JavaScript primitives *)

Example parseInt_42 : JS.parseInt (Some " 42abc") = JS.Dec 42 0.
Proof. reflexivity. Qed.

Example parseInt_hex : JS.parseInt (Some "0x1F") = JS.Dec 31 0.
Proof. reflexivity. Qed.

Example parseInt_undefined : JS.parseInt None = JS.NaN.
Proof. reflexivity. Qed.

(** A no-break space (U+00A0) before the digits is skipped. *)
Example parseInt_no_break_space :
  JS.parseInt
    (Some (String (ascii_of_nat 194) (String (ascii_of_nat 160) "42")))
  = JS.Dec 42 0.
Proof. reflexivity. Qed.

(** A byte order mark (U+FEFF) and a line separator (U+2028) as well. *)
Example parseFloat_unicode_space :
  JS.parseFloat
    (Some (String (ascii_of_nat 239) (String (ascii_of_nat 187)
             (String (ascii_of_nat 191)
                (String (ascii_of_nat 226) (String (ascii_of_nat 128)
                   (String (ascii_of_nat 168) "1.5")))))))
  = JS.Dec 15 (-1).
Proof. reflexivity. Qed.

(** Other bytes above the ASCII range are not white space. *)
Example parseInt_letter :
  JS.parseInt
    (Some (String (ascii_of_nat 195) (String (ascii_of_nat 160) "42")))
  = JS.NaN.
Proof. reflexivity. Qed.

Example parseInt_rounds :
  JS.parseInt (Some "9007199254740993") = JS.Dec 9007199254740992 0.
Proof. vm_compute. reflexivity. Qed.

Example parseFloat_coord : JS.parseFloat (Some "-77.0365") = JS.Dec (-770365) (-4).
Proof. reflexivity. Qed.

Example parseFloat_exp : JS.parseFloat (Some "1.5e3x") = JS.Dec 15 2.
Proof. reflexivity. Qed.

Example parseFloat_dot : JS.parseFloat (Some ".") = JS.NaN.
Proof. reflexivity. Qed.

Example parseFloat_underflow :
  JS.truthy (JS.parseFloat (Some "1e-400")) = false.
Proof. vm_compute. reflexivity. Qed.

Lemma truthy_zero : JS.truthy JS.zero = false.
Proof. reflexivity. Qed.

Lemma or_num_zero_truthy (n : JS.number) :
  JS.truthy (JS.or_num n JS.zero) = JS.truthy n.
Proof.
  unfold JS.or_num. destruct (JS.truthy n) eqn:E; [exact E | reflexivity].
Qed.

Lemma or_num_NaN : JS.or_num JS.NaN JS.zero = JS.zero.
Proof. reflexivity. Qed.

Lemma or_null_NaN : JS.or_null JS.NaN = None.
Proof. reflexivity. Qed.

Lemma or_str_undefined (d : string) : JS.or_str None d = d.
Proof. reflexivity. Qed.

(** ** The records kept by [processCSV] *)

Section Kept.

Import Csv.

Variable keep : clean_row -> bool.

Lemma fold_on_data (rows : list (gmap string string)) (acc : list clean_row) :
  fold_left (on_data keep) rows acc
  = (acc ++ List.filter keep (map cleanData rows))%list.
Proof.
  revert acc. induction rows as [|data rows IH]; intros acc; simpl.
  - now rewrite app_nil_r.
  - rewrite IH. unfold on_data.
    destruct (keep (cleanData data)); [now rewrite <- app_assoc | reflexivity].
Qed.

Lemma processCSV_with_end (rows : list (gmap string string)) :
  processCSV_with keep {| records := rows; failure := None |}
  = Resolved (List.filter keep (map cleanData rows)).
Proof. unfold processCSV_with. simpl. now rewrite fold_on_data. Qed.

End Kept.

(** The guard of the migration script is the test of the four
    coordinates. *)
Lemma migrate_keep_iff (r : Csv.clean_row) :
  Migrate.keep r = true <->
  JS.truthy (Csv.x_value_bgn r) = true /\ JS.truthy (Csv.y_value_bgn r) = true
  /\ JS.truthy (Csv.x_value_end r) = true /\ JS.truthy (Csv.y_value_end r) = true.
Proof.
  unfold Migrate.keep. rewrite !andb_true_iff. tauto.
Qed.

Lemma migrate_processCSV_kept (rows : list (gmap string string))
    (r : Csv.clean_row) :
  (exists kept,
      Migrate.processCSV {| Csv.records := rows; Csv.failure := None |}
      = Csv.Resolved kept /\
      (In r kept <->
       (exists data, In data rows /\ r = Csv.cleanData data)
       /\ Migrate.keep r = true)).
Proof.
  eexists. split; [apply processCSV_with_end |].
  rewrite filter_In, in_map_iff. split.
  - intros [[data [Hr Hin]] Hkeep]. split; [exists data; split; congruence | exact Hkeep].
  - intros [[data [Hin Hr]] Hkeep]. split; [exists data; split; congruence | exact Hkeep].
Qed.

(** ** The bulk load *)

Section Load.

Import Csv Db.
Local Open Scope db_scope.

Variable rejects : insert_values -> option string.
Variable values_of : clean_row -> insert_values.

Let insert (row : clean_row) : M unit :=
  client_query rejects (INSERT_INTO_road_segments (values_of row)).

Lemma for_each_app {A} (f : A -> M unit) (l1 l2 : list A) (st : state) :
  for_each f (l1 ++ l2) st = (for_each f l1 ;; for_each f l2) st.
Proof.
  revert st. induction l1 as [|x l1 IH]; intros st; simpl.
  - reflexivity.
  - unfold bind. destruct (f x st) as [[u| |] st']; try reflexivity.
    rewrite IH. reflexivity.
Qed.

Lemma numbered_length (first : Z) (rows : list clean_row) :
  length (numbered values_of first rows) = length rows.
Proof.
  revert first. induction rows as [|r rows IH]; intros first; simpl;
    [reflexivity | now rewrite IH].
Qed.

Lemma numbered_stored (first : Z) (rows : list clean_row) :
  map stored (numbered values_of first rows) = map values_of rows.
Proof.
  revert first. induction rows as [|r rows IH]; intros first; simpl;
    [reflexivity | now rewrite IH].
Qed.

Lemma append_rows_nil (st : state) : append_rows values_of [] st = st.
Proof.
  destruct st as [rows n snap]. unfold append_rows. simpl.
  rewrite app_nil_r, Z.add_0_r. reflexivity.
Qed.

Lemma append_rows_cons (row : clean_row) (rows : list clean_row) (st : state) :
  append_rows values_of rows
    {| road_segments :=
         road_segments st ++ [{| id := next_id st; stored := values_of row |}];
       next_id := (next_id st + 1)%Z;
       snapshot := snapshot st |}
  = append_rows values_of (row :: rows) st.
Proof.
  unfold append_rows. simpl. rewrite <- app_assoc. simpl. f_equal. lia.
Qed.

(** The inserts of a list of rows, one after the other: they stop at
    the first rejected row, with its error. *)
Lemma for_each_insert (rows : list clean_row) (st : state) :
  for_each insert rows st
  = (match snd (accepted_prefix rejects values_of rows) with
     | None => Ok tt
     | Some error => Throw error
     end,
     append_rows values_of (fst (accepted_prefix rejects values_of rows)) st).
Proof.
  revert st. induction rows as [|row rows IH]; intros st; simpl.
  - now rewrite append_rows_nil.
  - unfold bind, insert at 1. simpl.
    destruct (rejects (values_of row)) as [error|] eqn:E; simpl.
    + now rewrite append_rows_nil.
    + rewrite IH.
      destruct (accepted_prefix rejects values_of rows) as [accepted rejection].
      simpl. now rewrite append_rows_cons.
Qed.

(** The loop over the batches, with fuel for every batch, is the loop
    over the rows. *)
Lemma skipn_batch (i : nat) (data : list clean_row) :
  skipn i data
  = (slice i (i + batchSize) data ++ skipn (i + batchSize) data)%list.
Proof.
  unfold slice. replace (i + batchSize - i)%nat with batchSize by lia.
  rewrite (Nat.add_comm i batchSize), <- skipn_skipn.
  symmetry. apply firstn_skipn.
Qed.

Lemma batches_for_each (fuel i : nat) (data : list clean_row) (st : state) :
  (length data - i < fuel)%nat ->
  batches insert fuel i data st = for_each insert (skipn i data) st.
Proof.
  revert i st. induction fuel as [|fuel IH]; intros i st Hfuel; [lia |].
  cbn [batches]. destruct (Nat.ltb_spec i (length data)) as [Hlt | Hge].
  - rewrite (skipn_batch i data), for_each_app. unfold bind.
    destruct (for_each insert (slice i (i + batchSize) data) st)
      as [[u| |] st']; try reflexivity.
    apply IH. unfold batchSize. lia.
  - rewrite skipn_all2 by lia. reflexivity.
Qed.

Lemma batches_all (data : list clean_row) (st : state) :
  batches insert (S (length data)) 0 data st = for_each insert data st.
Proof. rewrite batches_for_each by lia. reflexivity. Qed.

Lemma accepted_prefix_all (rows : list clean_row) :
  snd (accepted_prefix rejects values_of rows) = None ->
  fst (accepted_prefix rejects values_of rows) = rows.
Proof.
  induction rows as [|row rows IH]; simpl; [reflexivity |].
  destruct (rejects (values_of row)); [discriminate |].
  destruct (accepted_prefix rejects values_of rows) as [accepted rejection].
  simpl in *. intros H. now rewrite IH.
Qed.

(** A row is rejected exactly when the inserts stop with an error. *)
Lemma accepted_prefix_rejection (rows : list clean_row) :
  (exists error, snd (accepted_prefix rejects values_of rows) = Some error)
  <-> Exists (fun row => rejects (values_of row) <> None) rows.
Proof.
  induction rows as [|row rows IH]; simpl.
  - split; [intros [e H]; discriminate | intros H; inversion H].
  - destruct (rejects (values_of row)) as [error|] eqn:E.
    + split; [intros _; left; congruence | intros _; now exists error].
    + destruct (accepted_prefix rejects values_of rows) as [accepted rejection].
      simpl in *. rewrite IH. split.
      * intros H. now right.
      * intros H. inversion H; subst; [congruence | assumption].
Qed.

Lemma accepted_prefix_none (rows : list clean_row) :
  snd (accepted_prefix rejects values_of rows) = None
  <-> Forall (fun row => rejects (values_of row) = None) rows.
Proof.
  induction rows as [|row rows IH]; simpl.
  - split; [constructor | reflexivity].
  - destruct (rejects (values_of row)) as [error|] eqn:E.
    + split; [discriminate | intros H; inversion H; congruence].
    + destruct (accepted_prefix rejects values_of rows) as [accepted rejection].
      simpl in *. rewrite IH. split.
      * intros H. now constructor.
      * intros H. now inversion H.
Qed.

(** The transaction as a whole: committed with every row when none is
    rejected, and otherwise rolled back to the rows at [BEGIN], with the
    error of the first rejected row thrown. *)
Lemma load_transaction_run (data : list clean_row) (st : state) :
  load_transaction rejects values_of data st
  = match snd (accepted_prefix rejects values_of data) with
    | None =>
        (Ok tt,
         {| road_segments := numbered values_of (next_id st) data;
            next_id := (next_id st + Z.of_nat (length data))%Z;
            snapshot := None |})
    | Some error =>
        (Throw error,
         {| road_segments := committed st;
            next_id :=
              (next_id st
               + Z.of_nat (length (fst (accepted_prefix rejects values_of data))))%Z;
            snapshot := None |})
    end.
Proof.
  unfold load_transaction.
  assert (Hloop : forall st0,
             batches
               (fun row =>
                  client_query rejects (INSERT_INTO_road_segments (values_of row)))
               (S (length data)) 0 data st0
             = for_each insert data st0) by (intros st0; apply batches_all).
  unfold try_finally, try_catch, bind. cbn [client_query ret throw].
  rewrite Hloop, for_each_insert.
  pose proof (accepted_prefix_all data) as Hall.
  destruct (accepted_prefix rejects values_of data) as [accepted [error|]];
    simpl in *.
  - unfold committed. destruct st as [rows n [before|]]; reflexivity.
  - rewrite Hall by reflexivity. destruct st as [rows n [before|]]; reflexivity.
Qed.

End Load.

Section LoadTwice.

Import Csv Db.

Variable rejects : insert_values -> option string.
Variable values_of : clean_row -> insert_values.

(** A second run of the transaction on the same rows stores the same
    values as the first. *)
Lemma load_transaction_twice (data : list clean_row) (st : state) :
  let st1 := snd (load_transaction rejects values_of data st) in
  let st2 := snd (load_transaction rejects values_of data st1) in
  map stored (road_segments st2) = map stored (road_segments st1).
Proof.
  cbv zeta. rewrite (load_transaction_run rejects values_of data st).
  destruct (snd (accepted_prefix rejects values_of data)) as [error|] eqn:E;
    cbn [snd]; rewrite load_transaction_run, E; cbn [snd road_segments].
  - reflexivity.
  - now rewrite !numbered_stored.
Qed.

End LoadTwice.

Lemma loadCSVData_run (rejects : Db.insert_values -> option string)
    (csv : option Csv.csv_stream) (st : Db.state) :
  Server.loadCSVData rejects csv st
  = (Db.Ok tt,
     match csv with
     | Some file =>
         match Server.processCSV file with
         | Csv.Resolved data =>
             snd (Db.load_transaction rejects Server.values data st)
         | Csv.Rejected _ => st
         end
     | None => st
     end).
Proof.
  unfold Server.loadCSVData, Db.try_catch, Db.bind.
  destruct csv as [file|]; [| reflexivity].
  destruct (Server.processCSV file) as [data | reason];
    cbn [Db.await Db.ret Db.throw]; [| reflexivity].
  rewrite load_transaction_run.
  destruct (snd (Db.accepted_prefix rejects Server.values data)); reflexivity.
Qed.

Lemma migrateData_state (rejects : Db.insert_values -> option string)
    (csv : option Csv.csv_stream) (st : Db.state) :
  snd (Migrate.migrateData rejects csv st)
  = match csv with
    | Some file =>
        match Migrate.processCSV file with
        | Csv.Resolved data => snd (Migrate.insertRoadData rejects data st)
        | Csv.Rejected _ => st
        end
    | None => st
    end.
Proof.
  unfold Migrate.migrateData, Db.try_catch, Db.bind.
  destruct csv as [file|]; [| reflexivity].
  destruct (Migrate.processCSV file) as [data | reason];
    cbn [Db.await Db.ret Db.throw]; [| reflexivity].
  destruct (Migrate.insertRoadData rejects data st) as [[u| |] st']; reflexivity.
Qed.

Lemma insertRoadData_run (rejects : Db.insert_values -> option string)
    (data : list Csv.clean_row) (st : Db.state) :
  Migrate.insertRoadData rejects data st
  = Db.load_transaction rejects Migrate.values data st.
Proof. reflexivity. Qed.

(** The rows of a resolved [processCSV] all pass its guard. *)
Lemma processCSV_with_kept (keep : Csv.clean_row -> bool)
    (file : Csv.csv_stream) (data : list Csv.clean_row) :
  Csv.processCSV_with keep file = Csv.Resolved data ->
  data = List.filter keep (map Csv.cleanData (Csv.records file)).
Proof.
  unfold Csv.processCSV_with. rewrite fold_on_data.
  destruct (Csv.failure file); [discriminate |].
  intros H. now inversion H.
Qed.

(** On the path of the migration script every stored row has its four
    coordinates. *)
Lemma migration_rows_have_four_coordinates
    (rejects : Db.insert_values -> option string)
    (file : Csv.csv_stream) (st st' : Db.state) (s : Db.segment) :
  Migrate.migrateData rejects (Some file) st = (Db.Ok Migrate.Completed, st') ->
  In s (Db.road_segments st') ->
  Migrate.keep (Db.attrs s) = true.
Proof.
  unfold Migrate.migrateData, Db.try_catch, Db.bind.
  destruct (Migrate.processCSV file) as [data | reason] eqn:Hcsv;
    cbn [Db.await Db.ret Db.throw]; [| discriminate].
  rewrite insertRoadData_run, load_transaction_run.
  destruct (snd (Db.accepted_prefix rejects Migrate.values data));
    [discriminate |].
  intros H. inversion H; subst st'. clear H. cbn [Db.road_segments].
  intros Hin.
  assert (Hs : In (Db.stored s) (map Migrate.values data)).
  { rewrite <- (numbered_stored Migrate.values (Db.next_id st) data).
    now apply in_map. }
  apply in_map_iff in Hs. destruct Hs as [row [Hrow Hdata]].
  apply processCSV_with_kept in Hcsv. rewrite Hcsv in Hdata.
  apply filter_In in Hdata. unfold Db.attrs. rewrite <- Hrow. simpl. tauto.
Qed.

(** ** The claims on ingestion *)

(** C1 (the server's loader departs from it): a record whose end point
    has a zero longitude is cleaned, kept by [processCSV] of [server.js]
    and stored by [loadCSVData] with that zero coordinate, while
    [processCSV] of the migration script, which tests the four
    coordinates, drops it. *)
Theorem server_load_stores_zero_end_coordinate :
  let file := Sample.file_of [Sample.zero_end] in
  (exists s,
      Db.road_segments
        (snd (Server.loadCSVData Sample.accepts_all (Some file) Sample.empty))
      = [s]
      /\ Csv.x_value_end (Db.attrs s) = JS.zero
      /\ JS.truthy (Csv.x_value_end (Db.attrs s)) = false)
  /\ Migrate.processCSV file = Csv.Resolved [].
Proof.
  split.
  - eexists. split; [vm_compute; reflexivity | split; reflexivity].
  - vm_compute. reflexivity.
Qed.

(** C2 (the handler departs from it): [POST /api/upload] with a file
    never replaces the rows: the handler evaluates the unbound
    identifier [db] right after parsing, so it answers with status 500
    and leaves the table as it was, whatever the file holds; without a
    file it answers with status 400. *)
Theorem upload_with_file_answers_500
    (rejects : Db.insert_values -> option string)
    (file : option Csv.csv_stream) (st : Db.state) :
  Server.upload rejects file st
  = (Db.Ok
       match file with
       | None =>
           {| Server.status := 400;
              Server.json := Server.Error "No file uploaded" |}
       | Some f =>
           {| Server.status := 500;
              Server.json :=
                Server.Error
                  match Server.processCSV f with
                  | Csv.Resolved _ => "db is not defined"
                  | Csv.Rejected reason => reason
                  end |}
       end,
     st).
Proof.
  unfold Server.upload, Db.try_catch, Db.bind.
  destruct file as [f|]; [| reflexivity].
  destruct (Server.processCSV f) as [data | reason]; reflexivity.
Qed.

(** C4: running the ingestion a second time on the same file leaves
    [road_segments] with as many rows as the first run did, and with the
    same stored values, for the loader of the server and for the
    migration script. *)
Theorem reingestion_keeps_row_count
    (rejects : Db.insert_values -> option string)
    (csv : option Csv.csv_stream) (st : Db.state) :
  let s1 := snd (Server.loadCSVData rejects csv st) in
  let s2 := snd (Server.loadCSVData rejects csv s1) in
  let m1 := snd (Migrate.migrateData rejects csv st) in
  let m2 := snd (Migrate.migrateData rejects csv m1) in
  (length (Db.road_segments s2) = length (Db.road_segments s1)
   /\ map Db.stored (Db.road_segments s2) = map Db.stored (Db.road_segments s1))
  /\ (length (Db.road_segments m2) = length (Db.road_segments m1)
      /\ map Db.stored (Db.road_segments m2)
         = map Db.stored (Db.road_segments m1)).
Proof.
  cbv zeta.
  assert (Hlen : forall a b : list Db.segment,
             map Db.stored a = map Db.stored b ->
             length a = length b /\ map Db.stored a = map Db.stored b).
  { intros a b H. split; [| exact H].
    rewrite <- (length_map Db.stored a), H. apply length_map. }
  split; apply Hlen.
  - rewrite !loadCSVData_run. cbn [snd].
    destruct csv as [file|]; [| reflexivity].
    destruct (Server.processCSV file) as [data | reason]; [| reflexivity].
    apply load_transaction_twice.
  - rewrite !migrateData_state.
    destruct csv as [file|]; [| reflexivity].
    destruct (Migrate.processCSV file) as [data | reason]; [| reflexivity].
    rewrite !insertRoadData_run. apply load_transaction_twice.
Qed.

Example reload_sample :
  let file := Sample.file_of [Sample.complete; Sample.zero_end] in
  let once := snd (Server.loadCSVData Sample.accepts_all (Some file)
                     Sample.one_row) in
  let twice := snd (Server.loadCSVData Sample.accepts_all (Some file) once) in
  length (Db.road_segments once) = 2%nat
  /\ length (Db.road_segments twice) = 2%nat
  /\ map Db.id (Db.road_segments twice) = [4%Z; 5%Z].
Proof. vm_compute. repeat split. Qed.

(** C5: on a connection with no transaction open, the bulk load either
    commits every row, numbered in the order of the file, or, when an
    insert is rejected, ends rolled back with [road_segments] exactly as
    before the load: [insertRoadData] then throws the error, and
    [loadCSVData] logs it. *)
Theorem bulk_load_commits_or_rolls_back
    (rejects : Db.insert_values -> option string)
    (file : Csv.csv_stream) (data : list Csv.clean_row) (st : Db.state) :
  Db.snapshot st = None ->
  Server.processCSV file = Csv.Resolved data ->
  ((Forall (fun row => rejects (Migrate.values row) = None) data
    /\ Migrate.insertRoadData rejects data st
       = (Db.Ok tt,
          {| Db.road_segments :=
               Db.numbered Migrate.values (Db.next_id st) data;
             Db.next_id := (Db.next_id st + Z.of_nat (length data))%Z;
             Db.snapshot := None |}))
   \/ (Exists (fun row => rejects (Migrate.values row) <> None) data
       /\ exists error st',
           Migrate.insertRoadData rejects data st = (Db.Throw error, st')
           /\ Db.road_segments st' = Db.road_segments st
           /\ Db.snapshot st' = None))
  /\ ((Forall (fun row => rejects (Server.values row) = None) data
       /\ Server.loadCSVData rejects (Some file) st
          = (Db.Ok tt,
             {| Db.road_segments :=
                  Db.numbered Server.values (Db.next_id st) data;
                Db.next_id := (Db.next_id st + Z.of_nat (length data))%Z;
                Db.snapshot := None |}))
      \/ (Exists (fun row => rejects (Server.values row) <> None) data
          /\ exists st',
              Server.loadCSVData rejects (Some file) st = (Db.Ok tt, st')
              /\ Db.road_segments st' = Db.road_segments st
              /\ Db.snapshot st' = None)).
Proof.
  intros Hfresh Hcsv. split.
  - rewrite insertRoadData_run, load_transaction_run.
    destruct (snd (Db.accepted_prefix rejects Migrate.values data))
      as [error|] eqn:E.
    + right. split.
      * apply accepted_prefix_rejection. now exists error.
      * do 2 eexists. split; [reflexivity |].
        unfold Db.committed. rewrite Hfresh. split; reflexivity.
    + left. split; [now apply accepted_prefix_none | reflexivity].
  - rewrite loadCSVData_run, Hcsv, load_transaction_run.
    destruct (snd (Db.accepted_prefix rejects Server.values data))
      as [error|] eqn:E.
    + right. split.
      * apply accepted_prefix_rejection. now exists error.
      * eexists. split; [reflexivity |].
        unfold Db.committed. rewrite Hfresh. split; reflexivity.
    + left. split; [now apply accepted_prefix_none | reflexivity].
Qed.

Lemma bulk_load_commits_or_rolls_back_witness :
  let file := Sample.file_of [Sample.complete; Sample.long_route] in
  let data := map Csv.cleanData [Sample.complete; Sample.long_route] in
  Db.snapshot Sample.one_row = None
  /\ Server.processCSV file = Csv.Resolved data
  /\ (exists st',
         Server.loadCSVData Sample.varchar_rejects (Some file) Sample.one_row
         = (Db.Ok tt, st')
         /\ Db.road_segments st' = Db.road_segments Sample.one_row).
Proof.
  cbv zeta.
  assert (Hcsv : Server.processCSV
                   (Sample.file_of [Sample.complete; Sample.long_route])
                 = Csv.Resolved
                     (map Csv.cleanData [Sample.complete; Sample.long_route]))
    by (vm_compute; reflexivity).
  split; [reflexivity | split; [exact Hcsv |]].
  destruct (bulk_load_commits_or_rolls_back Sample.varchar_rejects _ _
              Sample.one_row eq_refl Hcsv) as [_ [[Hall _] | [_ [st' [H1 [H2 _]]]]]].
  - exfalso. inversion Hall as [|row rows _ Hrest]; subst.
    inversion Hrest as [|row' rows' Hlong _]; subst.
    vm_compute in Hlong. discriminate.
  - exists st'. split; assumption.
Defined.

(** ** The cleaning of a record *)

(** C9 as stated fails on the object id: in a record whose [OBJECTID]
    is not a number the cleaned object has [null] there, not zero. *)
Lemma objectid_unreadable_is_not_zero :
  Csv.unreadable Sample.bad_objectid Csv.OBJECTID
  /\ Csv.field Csv.OBJECTID (Csv.cleanData Sample.bad_objectid)
     <> Csv.zero_or_empty Csv.OBJECTID.
Proof. split; [reflexivity | discriminate]. Qed.

(** C9, amended: the cleaning is a total function of the record, and a
    cell that cannot be read is replaced by the default of its column:
    zero for a numeric column other than the object id, [null] for the
    object id, the empty string for a text column. *)
Theorem cleaning_replaces_unreadable_cells
    (data : gmap string string) (c : Csv.column) :
  Csv.unreadable data c ->
  Csv.field c (Csv.cleanData data) = Csv.default_of c
  /\ (c <> Csv.OBJECTID -> Csv.default_of c = Csv.zero_or_empty c).
Proof.
  intros H. split.
  - destruct c; unfold Csv.unreadable, Csv.parsed in H;
      cbn [Csv.kind_of Csv.header] in H;
      unfold Csv.default_of; cbn [Csv.kind_of];
      unfold Csv.field, Csv.cleanData;
      cbn [Csv.objectid Csv.st_rt_no Csv.cty_code Csv.district_no Csv.seg_no
           Csv.seg_lngth_feet Csv.fac_type Csv.surf_type Csv.lane_cnt
           Csv.total_width Csv.rough_indx Csv.frictn_coeff
           Csv.pvmnt_cond_rate Csv.cur_aadt Csv.street_name Csv.traf_rt_no
           Csv.x_value_bgn Csv.y_value_bgn Csv.x_value_end Csv.y_value_end
           Csv.segment_miles Csv.lane_miles Csv.iri_rating_text
           Csv.opi_rating_text Csv.surface_year Csv.urban_rural Csv.nhs_ind];
      rewrite H; reflexivity.
  - intros Hc. destruct c; try reflexivity. now contradiction Hc.
Qed.

Lemma cleaning_replaces_unreadable_cells_witness :
  Csv.unreadable Sample.bad_objectid Csv.LANE_CNT
  /\ Csv.field Csv.LANE_CNT (Csv.cleanData Sample.bad_objectid)
     = Csv.VNum JS.zero.
Proof.
  split; [reflexivity |].
  exact (proj1 (cleaning_replaces_unreadable_cells
                  Sample.bad_objectid Csv.LANE_CNT eq_refl)).
Defined.

(** ** The statistics *)

Section StatisticsProperties.

Import Csv Server.

Variable pool_query : string -> promise (list json_row).

Lemma statistics_step_insert (results : gmap string (list json_row))
    (key query : string) :
  statistics_step pool_query results (key, query)
  = <[key := rows_or_empty pool_query query]> results.
Proof.
  unfold statistics_step, rows_or_empty.
  destruct (pool_query query); reflexivity.
Qed.

End StatisticsProperties.

(** C8: [GET /api/statistics] answers with status 200 and an object
    whose keys are exactly the six statistic names; each key holds the
    rows of its query, or the empty array when that query fails. *)
Theorem statistics_has_every_key
    (pool_query : string -> Csv.promise (list Server.json_row)) :
  exists results,
    Server.statistics pool_query
    = {| Server.status := 200; Server.json := Server.Statistics results |}
    /\ dom results
       = ({["total_segments"; "total_miles"; "by_fac_type"; "by_surf_type";
            "by_condition"; "by_district"]} : gset string)
    /\ Forall
         (fun entry =>
            results !! fst entry
            = Some match pool_query (snd entry) with
                   | Csv.Resolved rows => rows
                   | Csv.Rejected _ => []
                   end)
         Server.statistics_queries.
Proof.
  eexists. split; [reflexivity |].
  unfold Server.statistics_queries. cbn [fold_left].
  rewrite !statistics_step_insert. split.
  - rewrite !dom_insert_L, dom_empty_L. set_solver.
  - repeat constructor; cbn [fst snd]; fold (Server.rows_or_empty pool_query);
      simplify_map_eq; reflexivity.
Qed.

(** ** The heat map *)

Lemma filter_map_commute {A B} (g : A -> B) (f : B -> bool) (l : list A) :
  List.filter f (map g l) = map g (List.filter (fun x => f (g x)) l).
Proof.
  induction l as [|x l IH]; [reflexivity |].
  cbn [map List.filter]. destruct (f (g x)); cbn [map]; now rewrite IH.
Qed.

Lemma filter_filter {A} (p q : A -> bool) (l : list A) :
  List.filter p (List.filter q l) = List.filter (fun x => q x && p x) l.
Proof.
  induction l as [|x l IH]; [reflexivity |].
  cbn [List.filter]. destruct (q x); cbn [List.filter andb];
    [destruct (p x) |]; now rewrite IH.
Qed.

(** The term read from the two [switch] statements writes the query
    text that the handler passes to [pool.query]. *)
Lemma write_heat_query (q : Req.heatmap) :
  Server.write_heat (Server.heatmap_select q) = Server.heatmap_query q.
Proof.
  unfold Server.heatmap_select, Server.heatmap_query.
  destruct (Req.strict_eq _ "osm");
    destruct (Req.strict_eq _ "condition");
    try reflexivity;
    destruct (Req.strict_eq _ "traffic");
    try reflexivity;
    destruct (Req.strict_eq _ "age");
    reflexivity.
Qed.

(** C3: for every data source, a request with an unknown type passes
    the same query text to the database as the request with
    [type=condition], and gets the same response. *)
Theorem heatmap_unknown_type_is_condition
    (connection_error : option string) (current_year : Z)
    (data_source : option Req.qval) (type : Req.qval)
    (st : Db.state) (osm_roads : list Server.osm_road) :
  Req.unknown_type type ->
  let bogus := {| Req.type := Some type; Req.data_source := data_source |} in
  let condition :=
    {| Req.type := Some (Req.QStr "condition");
       Req.data_source := data_source |} in
  Server.heatmap_query bogus = Server.heatmap_query condition
  /\ Server.heatmap connection_error current_year bogus st osm_roads
     = Server.heatmap connection_error current_year condition st osm_roads.
Proof.
  intros [Hc [Ht Ha]]. cbv zeta.
  assert (Hsel : Server.heatmap_select
                   {| Req.type := Some type; Req.data_source := data_source |}
                 = Server.heatmap_select
                     {| Req.type := Some (Req.QStr "condition");
                        Req.data_source := data_source |}).
  { unfold Server.heatmap_select. cbn [Req.type Req.data_source Server.or_default].
    rewrite Hc, Ht, Ha. cbn [Req.strict_eq String.eqb Ascii.eqb Bool.eqb].
    destruct (Req.strict_eq _ "osm"); reflexivity. }
  split.
  - rewrite <- !write_heat_query. now rewrite Hsel.
  - unfold Server.heatmap. now rewrite Hsel.
Qed.

Lemma heatmap_unknown_type_is_condition_witness :
  Req.unknown_type (Req.QStr "bogus")
  /\ Server.heatmap_query (Sample.heat_of "bogus" "osm")
     = Server.heatmap_query (Sample.heat_of "condition" "osm")
  /\ Server.heatmap None 2025 (Sample.heat_of "bogus" "osm")
       Sample.three_rows Sample.osm_sample
     = Server.heatmap None 2025 (Sample.heat_of "condition" "osm")
         Sample.three_rows Sample.osm_sample.
Proof.
  assert (H : Req.unknown_type (Req.QStr "bogus")) by (repeat split).
  split; [exact H |].
  exact (heatmap_unknown_type_is_condition None 2025
           (Some (Req.QStr "osm")) (Req.QStr "bogus")
           Sample.three_rows Sample.osm_sample H).
Defined.

(** C10: on the OSM source the age metric computes no age.  The queries
    of [type=condition] and [type=age] both select [length_meters] as
    the value; the rows of the first are those rows of the second whose
    length is greater than zero, so each of them is among the rows of
    the second. *)
Theorem osm_age_is_length
    (current_year : Z) (st : Db.state) (osm_roads : list Server.osm_road) :
  let condition := Sample.heat_of "condition" "osm" in
  let age := Sample.heat_of "age" "osm" in
  let in_state := List.filter Server.in_PA osm_roads in
  let of_age := map (Server.osm_point Server.LengthMeters) in_state in
  let of_condition :=
    List.filter (fun p => Server.positive (Server.value p)) of_age in
  Server.heatmap_query condition = Server.osm_condition
  /\ Server.heatmap_query age = Server.osm_age
  /\ Server.heatmap None current_year age st osm_roads
     = {| Server.status := 200; Server.json := inl of_age |}
  /\ Server.heatmap None current_year condition st osm_roads
     = {| Server.status := 200; Server.json := inl of_condition |}
  /\ map Server.value of_age = map Server.length_meters in_state
  /\ incl of_condition of_age.
Proof.
  cbv zeta. split; [reflexivity |]. split; [reflexivity |].
  split; [| split; [| split]].
  - unfold Server.heatmap, Server.run_heat. cbn.
    reflexivity.
  - unfold Server.heatmap, Server.run_heat.
    cbn [Server.heatmap_select Sample.heat_of Req.type Req.data_source
         Server.or_default Req.strict_eq String.eqb Ascii.eqb Bool.eqb].
    do 2 f_equal.
    rewrite filter_map_commute, filter_filter. f_equal.
    apply filter_ext. intros r. cbn. apply andb_comm.
  - rewrite map_map. reflexivity.
  - intros p Hp. apply filter_In in Hp. tauto.
Qed.

(** ** The list of roads *)

Lemma string_app_assoc (a b c : string) : (a ++ b) ++ c = a ++ b ++ c.
Proof.
  induction a as [|x a IH]; [reflexivity |].
  change (String x ((a ++ b) ++ c) = String x (a ++ b ++ c)). now f_equal.
Qed.

Lemma string_app_empty (a : string) : a ++ EmptyString = a.
Proof.
  induction a as [|x a IH]; [reflexivity |].
  change (String x (a ++ EmptyString) = String x a). now f_equal.
Qed.

Lemma write_conditions_app (cs1 cs2 : list Server.condition) (n : nat) :
  Server.write_conditions (cs1 ++ cs2) n
  = Server.write_conditions cs1 n
    ++ Server.write_conditions cs2 (n + length cs1).
Proof.
  revert n. induction cs1 as [|c cs1 IH]; intros n; cbn [app length].
  - now rewrite Nat.add_0_r.
  - cbn [Server.write_conditions]. rewrite IH, !string_app_assoc.
    now rewrite Nat.add_succ_r.
Qed.

Lemma filter_clause_holds (b : Server.builder) (cs : list Server.condition)
    (c : Csv.column) (o : Server.comparison_op) (v : option Req.qval) :
  Server.holds b cs ->
  Server.holds (Server.filter_clause v (" AND " ++ Sql.name c ++ Server.op_text o) b)
        (cs ++ Server.supplied c o v).
Proof.
  intros [Hq [Hp Hn]]. unfold Server.filter_clause, Server.supplied.
  destruct v as [x|]; [destruct (Req.truthy x) |];
    try (rewrite app_nil_r; repeat split; assumption).
  repeat split; cbn [Server.query Server.params Server.paramCount].
  - rewrite Hq, Hn, write_conditions_app. cbn [Server.write_conditions plus].
    cbn [Server.on Server.op]. rewrite !string_app_assoc, string_app_empty.
    reflexivity.
  - rewrite Hp, map_app. reflexivity.
  - rewrite Hn, length_app. cbn. lia.
Qed.

(** The term read from the handler writes the text and the parameters
    that the handler passes to [pool.query]. *)
Lemma write_select_query (q : Req.roads) :
  Server.write_select (Server.roads_select q) = Server.roads_query q.
Proof.
  assert (H0 : Server.holds {| Server.query := Server.select_roads;
                        Server.params := [];
                        Server.paramCount := 0 |} []).
  { repeat split. }
  pose proof (filter_clause_holds _ _ Csv.FAC_TYPE Server.OpEq
                (Req.fac_type q) H0) as H1.
  pose proof (filter_clause_holds _ _ Csv.SURF_TYPE Server.OpEq
                (Req.surf_type q) H1) as H2.
  pose proof (filter_clause_holds _ _ Csv.DISTRICT_NO Server.OpEq
                (Req.district_no q) H2) as H3.
  pose proof (filter_clause_holds _ _ Csv.URBAN_RURAL Server.OpEq
                (Req.urban_rural q) H3) as H4.
  pose proof (filter_clause_holds _ _ Csv.ROUGH_INDX Server.OpGe
                (Req.min_condition q) H4) as H5.
  pose proof (filter_clause_holds _ _ Csv.ROUGH_INDX Server.OpLe
                (Req.max_condition q) H5) as H6.
  clear H0 H1 H2 H3 H4 H5. cbn [app] in H6. rewrite <- !app_assoc in H6.
  destruct H6 as [Hq [Hp Hn]].
  unfold Server.roads_query, Server.write_select.
  change (" AND fac_type = $")
    with (" AND " ++ Sql.name Csv.FAC_TYPE ++ Server.op_text Server.OpEq).
  change (" AND surf_type = $")
    with (" AND " ++ Sql.name Csv.SURF_TYPE ++ Server.op_text Server.OpEq).
  change (" AND district_no = $")
    with (" AND " ++ Sql.name Csv.DISTRICT_NO ++ Server.op_text Server.OpEq).
  change (" AND urban_rural = $")
    with (" AND " ++ Sql.name Csv.URBAN_RURAL ++ Server.op_text Server.OpEq).
  change (" AND rough_indx >= $")
    with (" AND " ++ Sql.name Csv.ROUGH_INDX ++ Server.op_text Server.OpGe).
  change (" AND rough_indx <= $")
    with (" AND " ++ Sql.name Csv.ROUGH_INDX ++ Server.op_text Server.OpLe).
  rewrite Hq, Hp, Hn. cbn [Server.roads_select Server.conditions Server.limit
                            Server.offset].
  rewrite !string_app_assoc. reflexivity.
Qed.

Example roads_query_two_filters :
  Server.query (Server.roads_query Sample.two_filters)
  = Server.select_roads
    ++ " AND fac_type = $1 AND surf_type = $2 LIMIT $3 OFFSET $4"
  /\ Server.params (Server.roads_query Sample.two_filters)
     = [Server.PQuery (Req.QStr "1"); Server.PQuery (Req.QStr "52");
        Server.PNumber (JS.Dec 10000 0); Server.PNumber (JS.Dec 0 0)].
Proof. split; reflexivity. Qed.

Section RoadsProperties.

Import Csv Db Server.
Local Open Scope list_scope.

Variable numeric_in : string -> option JS.number.
Variable array_text : list string -> string.

Lemma bind_conditions_app (cs1 cs2 : list condition) :
  bind_conditions numeric_in array_text (cs1 ++ cs2)
  = match bind_conditions numeric_in array_text cs1,
          bind_conditions numeric_in array_text cs2 with
    | Some t1, Some t2 => Some (t1 ++ t2)
    | _, _ => None
    end.
Proof.
  induction cs1 as [|c cs1 IH]; cbn [app bind_conditions].
  - destruct (bind_conditions numeric_in array_text cs2); reflexivity.
  - rewrite IH.
    destruct (bind_condition numeric_in array_text c);
      destruct (bind_conditions numeric_in array_text cs1);
      destruct (bind_conditions numeric_in array_text cs2); reflexivity.
Qed.

Lemma satisfies_app (t1 t2 : list (clean_row -> bool)) (s : segment) :
  satisfies (t1 ++ t2) s = satisfies t1 s && satisfies t2 s.
Proof. unfold satisfies. apply forallb_app. Qed.

(** A supplied value for a text column is a test of equality; any value
    is accepted. *)
Lemma supplied_text (c : column) (get : clean_row -> string)
    (v : option Req.qval) :
  kind_of c = StrCol ->
  (forall row, field c row = VStr (get row)) ->
  exists tests,
    bind_conditions numeric_in array_text (supplied c OpEq v) = Some tests
    /\ forall s, satisfies tests s = true
                 <-> is_value array_text v (get (attrs s)).
Proof.
  intros Hkind Hfield. unfold supplied, is_value.
  destruct v as [x|]; [destruct (Req.truthy x) |].
  - cbn [bind_conditions]. unfold bind_condition. cbn [on op bound].
    rewrite Hkind. eexists. split; [reflexivity |].
    intros s. unfold satisfies. cbn [forallb]. rewrite Hfield, andb_true_r.
    rewrite String.eqb_eq. tauto.
  - exists []. split; [reflexivity |]. intros s. split; [discriminate | reflexivity].
  - exists []. split; [reflexivity |]. intros s. split; reflexivity.
Qed.

(** A supplied bound on the roughness index is a comparison with the
    number that the database reads from it. *)
Lemma supplied_lower (v : option Req.qval) :
  numeric_bound numeric_in array_text v ->
  exists tests,
    bind_conditions numeric_in array_text (supplied ROUGH_INDX OpGe v)
    = Some tests
    /\ forall s, satisfies tests s = true
                 <-> at_least numeric_in array_text v (rough_indx (attrs s)).
Proof.
  unfold numeric_bound, supplied, at_least.
  destruct v as [x|]; [destruct (Req.truthy x) |]; intros Hbound.
  - destruct (Hbound eq_refl) as [n Hn].
    cbn [bind_conditions]. unfold bind_condition. cbn [on op bound kind_of].
    rewrite Hn. eexists. split; [reflexivity |].
    intros s. unfold satisfies. cbn [forallb field holds_op].
    rewrite andb_true_r. split.
    + intros H _. now exists n.
    + intros H. destruct (H eq_refl) as [m [Hm Hle]]. congruence.
  - exists []. split; [reflexivity |]. intros s. split; [discriminate | reflexivity].
  - exists []. split; [reflexivity |]. intros s. split; reflexivity.
Qed.

Lemma supplied_upper (v : option Req.qval) :
  numeric_bound numeric_in array_text v ->
  exists tests,
    bind_conditions numeric_in array_text (supplied ROUGH_INDX OpLe v)
    = Some tests
    /\ forall s, satisfies tests s = true
                 <-> at_most numeric_in array_text v (rough_indx (attrs s)).
Proof.
  unfold numeric_bound, supplied, at_most.
  destruct v as [x|]; [destruct (Req.truthy x) |]; intros Hbound.
  - destruct (Hbound eq_refl) as [n Hn].
    cbn [bind_conditions]. unfold bind_condition. cbn [on op bound kind_of].
    rewrite Hn. eexists. split; [reflexivity |].
    intros s. unfold satisfies. cbn [forallb field holds_op].
    rewrite andb_true_r. split.
    + intros H _. now exists n.
    + intros H. destruct (H eq_refl) as [m [Hm Hle]]. congruence.
  - exists []. split; [reflexivity |]. intros s. split; [discriminate | reflexivity].
  - exists []. split; [reflexivity |]. intros s. split; reflexivity.
Qed.

(** The conditions of the query are the conjunction of the supplied
    filters. *)
Lemma roads_tests (q : Req.roads) :
  numeric_bound numeric_in array_text (Req.min_condition q) ->
  numeric_bound numeric_in array_text (Req.max_condition q) ->
  exists tests,
    bind_conditions numeric_in array_text (conditions (roads_select q))
    = Some tests
    /\ forall s, satisfies tests s = true
                 <-> meets numeric_in array_text q (attrs s).
Proof.
  intros Hmin Hmax.
  destruct (supplied_text FAC_TYPE fac_type (Req.fac_type q) eq_refl
              (fun _ => eq_refl)) as [t1 [B1 S1]].
  destruct (supplied_text SURF_TYPE surf_type (Req.surf_type q) eq_refl
              (fun _ => eq_refl)) as [t2 [B2 S2]].
  destruct (supplied_text DISTRICT_NO district_no (Req.district_no q) eq_refl
              (fun _ => eq_refl)) as [t3 [B3 S3]].
  destruct (supplied_text URBAN_RURAL urban_rural (Req.urban_rural q) eq_refl
              (fun _ => eq_refl)) as [t4 [B4 S4]].
  destruct (supplied_lower (Req.min_condition q) Hmin) as [t5 [B5 S5]].
  destruct (supplied_upper (Req.max_condition q) Hmax) as [t6 [B6 S6]].
  exists (t1 ++ t2 ++ t3 ++ t4 ++ t5 ++ t6). split.
  - cbn [roads_select conditions].
    rewrite !bind_conditions_app, B1, B2, B3, B4, B5, B6. reflexivity.
  - intros s. rewrite !satisfies_app, !andb_true_iff.
    rewrite S1, S2, S3, S4, S5, S6. unfold meets. tauto.
Qed.

Lemma row_count_of_nat (n : nat) :
  (Z.of_nat n < 2 ^ 63)%Z -> Sql.row_count (JS.Dec (Z.of_nat n) 0) = Some n.
Proof.
  intros H. unfold Sql.row_count.
  destruct (Z.leb_spec 0 (Z.of_nat n)); [| lia].
  destruct (Z.ltb_spec (Z.of_nat n) (2 ^ 63)); [| lia].
  cbn [andb]. now rewrite Nat2Z.id.
Qed.

Lemma In_firstn_skipn {A} (l o : nat) (x : A) (rows : list A) :
  In x (firstn l (skipn o rows)) -> In x rows.
Proof.
  intros H. rewrite <- (firstn_skipn o rows). apply in_or_app. right.
  rewrite <- (firstn_skipn l (skipn o rows)). apply in_or_app. now left.
Qed.

(** The response to a request whose row counts and bounds the database
    accepts. *)
Lemma roads_accepted (q : Req.roads) (st : state) (l o : nat)
    (tests : list (clean_row -> bool)) :
  JS.parseInt_str (text_or "10000" (Req.limit q)) = JS.Dec (Z.of_nat l) 0 ->
  (Z.of_nat l < 2 ^ 63)%Z ->
  JS.parseInt_str (text_or "0" (Req.offset q)) = JS.Dec (Z.of_nat o) 0 ->
  (Z.of_nat o < 2 ^ 63)%Z ->
  bind_conditions numeric_in array_text (conditions (roads_select q))
  = Some tests ->
  roads numeric_in array_text None q st
  = {| status := 200;
       json := inl (firstn l (skipn o (List.filter (satisfies tests)
                                                    (committed st)))) |}.
Proof.
  intros Hl Hlmax Ho Homax Htests. unfold roads, run_select.
  rewrite Htests. cbn [roads_select limit offset]. rewrite Hl, Ho.
  rewrite !row_count_of_nat by assumption. reflexivity.
Qed.




End RoadsProperties.

(** C6 as stated fails on the order: the query has no [ORDER BY], and
    the page depends on the order in which the database scans the rows.
    The same two rows, scanned in the two orders, give two different
    answers to [?limit=1]. *)
Lemma roads_page_follows_scan_order :
  Permutation (Db.committed (Sample.scanned [Sample.row_1; Sample.row_2]))
              (Db.committed (Sample.scanned [Sample.row_2; Sample.row_1]))
  /\ Server.roads Sample.decimal_in Sample.braces None Sample.first_row
       (Sample.scanned [Sample.row_1; Sample.row_2])
     = {| Server.status := 200; Server.json := inl [Sample.row_1] |}
  /\ Server.roads Sample.decimal_in Sample.braces None Sample.first_row
       (Sample.scanned [Sample.row_2; Sample.row_1])
     = {| Server.status := 200; Server.json := inl [Sample.row_2] |}
  /\ Sample.row_1 <> Sample.row_2.
Proof.
  split; [apply perm_swap |].
  split; [vm_compute; reflexivity |].
  split; [vm_compute; reflexivity | discriminate].
Qed.

(** C6, amended: for a request whose [limit] and [offset] read as the
    row counts [l] and [o] (10000 and 0 when absent), on a reachable
    database that can read the supplied bounds, the response is an array
    of at most [l] rows: the rows of the table that meet the filters, in
    the order in which the database scans them, without the first [o].
    No sort order is fixed by the query. *)
Theorem roads_limit_offset
    (numeric_in : string -> option JS.number)
    (array_text : list string -> string)
    (q : Req.roads) (st : Db.state) (l o : nat) :
  JS.parseInt_str (Server.text_or "10000" (Req.limit q))
  = JS.Dec (Z.of_nat l) 0 ->
  (Z.of_nat l < 2 ^ 63)%Z ->
  JS.parseInt_str (Server.text_or "0" (Req.offset q))
  = JS.Dec (Z.of_nat o) 0 ->
  (Z.of_nat o < 2 ^ 63)%Z ->
  Server.numeric_bound numeric_in array_text (Req.min_condition q) ->
  Server.numeric_bound numeric_in array_text (Req.max_condition q) ->
  exists tests,
    (forall s, Server.satisfies tests s = true
               <-> Server.meets numeric_in array_text q (Db.attrs s))
    /\ (let rows :=
          firstn l (skipn o (List.filter (Server.satisfies tests)
                                         (Db.committed st))) in
        Server.roads numeric_in array_text None q st
        = {| Server.status := 200; Server.json := inl rows |}
        /\ length rows <= l)
    /\ (Req.limit q = None -> Z.of_nat l = 10000%Z)
    /\ (Req.offset q = None -> o = 0%nat).
Proof.
  intros Hl Hlmax Ho Homax Hmin Hmax.
  destruct (roads_tests numeric_in array_text q Hmin Hmax)
    as [tests [Hbind Hmeets]].
  exists tests. split; [exact Hmeets |]. split; [| split].
  - cbv zeta. split; [now apply roads_accepted | apply firstn_le_length].
  - intros Hnone. rewrite Hnone in Hl.
    change (JS.Dec 10000 0 = JS.Dec (Z.of_nat l) 0) in Hl. congruence.
  - intros Hnone. rewrite Hnone in Ho.
    change (JS.Dec 0 0 = JS.Dec (Z.of_nat o) 0) in Ho.
    assert (Z.of_nat o = 0%Z) by congruence. lia.
Qed.

Lemma roads_limit_offset_witness :
  JS.parseInt_str (Server.text_or "10000" (Req.limit Sample.second_page))
  = JS.Dec (Z.of_nat 1) 0
  /\ JS.parseInt_str (Server.text_or "0" (Req.offset Sample.second_page))
     = JS.Dec (Z.of_nat 1) 0
  /\ Server.numeric_bound Sample.decimal_in Sample.braces
       (Req.min_condition Sample.second_page)
  /\ exists tests,
       Server.roads Sample.decimal_in Sample.braces None Sample.second_page
         Sample.three_rows
       = {| Server.status := 200;
            Server.json :=
              inl (firstn 1 (skipn 1 (List.filter (Server.satisfies tests)
                                        (Db.committed Sample.three_rows)))) |}.
Proof.
  assert (Hmin : Server.numeric_bound Sample.decimal_in Sample.braces
                   (Req.min_condition Sample.second_page))
    by (intros _; eexists; reflexivity).
  split; [reflexivity | split; [reflexivity | split; [exact Hmin |]]].
  destruct (roads_limit_offset Sample.decimal_in Sample.braces
              Sample.second_page Sample.three_rows 1 1
              eq_refl eq_refl eq_refl eq_refl Hmin I)
    as [tests [_ [[Hrows _] _]]].
  exists tests. exact Hrows.
Defined.

Example roads_second_page :
  Server.roads Sample.decimal_in Sample.braces None Sample.second_page
    Sample.three_rows
  = {| Server.status := 200;
       Server.json :=
         inl [{| Db.id := 3;
                 Db.stored := Server.values (Csv.cleanData Sample.complete) |}] |}.
Proof. vm_compute. reflexivity. Qed.




Example roads_two_filters :
  Server.roads Sample.decimal_in Sample.braces None Sample.two_filters
    Sample.three_rows
  = {| Server.status := 200;
       Server.json :=
         inl [{| Db.id := 1;
                 Db.stored := Server.values (Csv.cleanData Sample.complete) |};
              {| Db.id := 3;
                 Db.stored := Server.values (Csv.cleanData Sample.complete) |}] |}.
Proof. vm_compute. reflexivity. Qed.

(** A text filter that no row has is answered with the empty array. *)
Example roads_unknown_fac_type :
  Server.roads Sample.decimal_in Sample.braces None
    {| Req.fac_type := Some (Req.QStr "no such type");
       Req.surf_type := None; Req.district_no := None;
       Req.urban_rural := None; Req.min_condition := None;
       Req.max_condition := None; Req.limit := None; Req.offset := None |}
    Sample.three_rows
  = {| Server.status := 200; Server.json := inl [] |}.
Proof. vm_compute. reflexivity. Qed.

(** A limit that is not a number is refused by the database. *)
Example roads_limit_not_a_number :
  Server.status
    (Server.roads Sample.decimal_in Sample.braces None
       {| Req.fac_type := None; Req.surf_type := None;
          Req.district_no := None; Req.urban_rural := None;
          Req.min_condition := None; Req.max_condition := None;
          Req.limit := Some (Req.QStr "abc"); Req.offset := None |}
       Sample.three_rows)
  = 500%Z.
Proof. vm_compute. reflexivity. Qed.

(** * Further properties

    ** Ingestion *)

Lemma filter_none {A} (keep : A -> bool) (l : list A) :
  Forall (fun x => keep x = false) l -> List.filter keep l = [].
Proof.
  induction 1 as [|x l Hx _ IH]; [reflexivity |].
  cbn [List.filter]. now rewrite Hx.
Qed.

(** X1: [processCSV] of the server settles its promise on the events of
    the parser stream.  At ['end'] it resolves with the cleaned records
    whose two begin coordinates are non-zero, in the order of the file;
    at an ['error'] of the parser it rejects with that error, whatever
    was read before.  An ['error'] of the file stream does not reach
    the promise: it is left unsettled and the event is uncaught. *)
Theorem processCSV_settles_on_parser_events (file : Files.source) :
  Files.processCSV Server.keep file
  = match file with
    | Files.Parsed stream =>
        Files.Ends
          match Csv.failure stream with
          | Some reason => Csv.Rejected reason
          | None =>
              Csv.Resolved
                (List.filter
                   (fun r => JS.truthy (Csv.x_value_bgn r)
                             && JS.truthy (Csv.y_value_bgn r))
                   (map Csv.cleanData (Csv.records stream)))
          end
    | Files.ReadError error => Files.Uncaught error
    end.
Proof.
  destruct file as [stream | error]; [| reflexivity].
  unfold Files.processCSV, Csv.processCSV_with. rewrite fold_on_data.
  destruct (Csv.failure stream); reflexivity.
Qed.

(** X2: a migration of a file in which no record has its four
    coordinates (a file of the header line only, say) commits an empty
    [road_segments]: the rows of before are deleted and none is
    inserted, whatever the database accepts. *)
Theorem migration_without_complete_record_empties_table
    (rejects : Db.insert_values -> option string)
    (file : Csv.csv_stream) (st : Db.state) :
  Csv.failure file = None ->
  Forall (fun data => Migrate.keep (Csv.cleanData data) = false)
         (Csv.records file) ->
  snd (Migrate.migrateData rejects (Some file) st)
  = {| Db.road_segments := [];
       Db.next_id := Db.next_id st;
       Db.snapshot := None |}.
Proof.
  intros Hend Hnone.
  assert (Hcsv : Migrate.processCSV file = Csv.Resolved []).
  { unfold Migrate.processCSV, Csv.processCSV_with.
    rewrite fold_on_data, Hend. cbn [app]. f_equal.
    apply filter_none. apply Forall_map. exact Hnone. }
  unfold Migrate.migrateData, Db.try_catch, Db.bind. rewrite Hcsv.
  cbn [Db.await Db.ret]. rewrite insertRoadData_run, load_transaction_run.
  cbn [Db.accepted_prefix snd Db.numbered length]. cbn [snd].
  now rewrite Z.add_0_r.
Qed.

Lemma migration_without_complete_record_empties_table_witness :
  let file := Sample.file_of [Sample.zero_end] in
  Csv.failure file = None
  /\ Forall (fun data => Migrate.keep (Csv.cleanData data) = false)
            (Csv.records file)
  /\ Db.road_segments Sample.one_row <> []
  /\ Db.road_segments
       (snd (Migrate.migrateData Sample.varchar_rejects (Some file)
               Sample.one_row))
     = [].
Proof.
  cbv zeta.
  assert (Hnone : Forall (fun data => Migrate.keep (Csv.cleanData data) = false)
                         (Csv.records (Sample.file_of [Sample.zero_end])))
    by (repeat constructor).
  split; [reflexivity |]. split; [exact Hnone |].
  split; [discriminate |].
  now rewrite (migration_without_complete_record_empties_table
                 Sample.varchar_rejects (Sample.file_of [Sample.zero_end])
                 Sample.one_row eq_refl Hnone).
Defined.

(** X3: on a connection with no transaction open, [loadCSVData] swallows
    the errors that are thrown to it.  With no file at the path, an
    ['error'] of the parser stream or a rejected insert it ends without
    an exception and with no transaction open, and [road_segments] is
    then either as before or holds rows inserted with exactly the values
    of the records kept by [processCSV], in the order of the file.  An
    ['error'] of the file stream is not thrown to it: the event is
    uncaught, and nothing is sent to the database. *)
Theorem loadCSVData_swallows_thrown_errors
    (rejects : Db.insert_values -> option string)
    (csv : option Files.source) (st : Db.state) :
  Db.snapshot st = None ->
  match csv with
  | Some (Files.ReadError error) =>
      Files.loadCSVData rejects csv st = Files.Uncaught error
  | _ =>
      exists st',
        Files.loadCSVData rejects csv st = Files.Ends (Db.Ok tt, st')
        /\ Db.snapshot st' = None
        /\ (Db.road_segments st' = Db.road_segments st
            \/ exists stream,
                csv = Some (Files.Parsed stream)
                /\ Csv.failure stream = None
                /\ map Db.stored (Db.road_segments st')
                   = map Server.values
                       (List.filter Server.keep
                          (map Csv.cleanData (Csv.records stream))))
  end.
Proof.
  intros Hfresh.
  destruct csv as [[stream | error] |]; [| reflexivity |].
  - cbn [Files.loadCSVData]. rewrite loadCSVData_run.
    eexists. split; [reflexivity |].
    destruct (Server.processCSV stream) as [data | reason] eqn:Hcsv;
      [| split; [exact Hfresh | now left]].
    rewrite load_transaction_run.
    destruct (snd (Db.accepted_prefix rejects Server.values data)); cbn [snd].
    + split; [reflexivity |]. left. cbn [Db.road_segments].
      unfold Db.committed. now rewrite Hfresh.
    + split; [reflexivity |]. right. exists stream. split; [reflexivity |].
      split.
      * revert Hcsv. unfold Server.processCSV, Csv.processCSV_with.
        destruct (Csv.failure stream); [discriminate | reflexivity].
      * cbn [Db.road_segments]. rewrite numbered_stored.
        now rewrite (processCSV_with_kept _ _ _ Hcsv).
  - cbn [Files.loadCSVData]. rewrite loadCSVData_run.
    eexists. split; [reflexivity |]. split; [exact Hfresh | now left].
Qed.

Lemma loadCSVData_swallows_thrown_errors_witness :
  let csv :=
    Some (Files.Parsed (Sample.file_of [Sample.complete; Sample.long_route])) in
  Db.snapshot Sample.one_row = None
  /\ exists st',
       Files.loadCSVData Sample.varchar_rejects csv Sample.one_row
       = Files.Ends (Db.Ok tt, st')
       /\ Db.snapshot st' = None.
Proof.
  cbv zeta. split; [reflexivity |].
  destruct (loadCSVData_swallows_thrown_errors Sample.varchar_rejects
              (Some (Files.Parsed
                       (Sample.file_of [Sample.complete; Sample.long_route])))
              Sample.one_row eq_refl)
    as [st' [Hrun [Hsnap _]]].
  exists st'. split; assumption.
Defined.

(** An unreadable file under the path ends the process; the table is
    not touched. *)
Example loadCSVData_directory :
  Files.loadCSVData Sample.varchar_rejects (Some Cases.directory)
    Sample.one_row
  = Files.Uncaught "EISDIR: illegal operation on a directory, read".
Proof. reflexivity. Qed.

(** An error of the parser is swallowed. *)
Example loadCSVData_parser_error :
  Files.loadCSVData Sample.varchar_rejects (Some (Files.Parsed Cases.broken))
    Sample.one_row
  = Files.Ends (Db.Ok tt, Sample.one_row).
Proof. vm_compute. reflexivity. Qed.

(** X4: a migration that finds no file, cannot read the file to its
    end, or has an insert rejected exits with code 1, with
    [road_segments] as it was before and no transaction left open. *)
Theorem failed_migration_exits_1
    (rejects : Db.insert_values -> option string)
    (csv : option Csv.csv_stream) (st : Db.state) :
  Db.snapshot st = None ->
  (csv = None
   \/ (exists file reason,
          csv = Some file /\ Migrate.processCSV file = Csv.Rejected reason)
   \/ (exists file data,
          csv = Some file /\ Migrate.processCSV file = Csv.Resolved data
          /\ Exists (fun row => rejects (Migrate.values row) <> None) data)) ->
  exists st',
    Migrate.migrateData rejects csv st = (Db.Ok (Migrate.Exit 1), st')
    /\ Db.road_segments st' = Db.road_segments st
    /\ Db.snapshot st' = None.
Proof.
  intros Hfresh [Hnone | [[file [reason [Hcsv Hread]]]
                         | [file [data [Hcsv [Hread Hrej]]]]]]; subst csv.
  - exists st. repeat split; assumption.
  - exists st. unfold Migrate.migrateData, Db.try_catch, Db.bind.
    rewrite Hread. repeat split; assumption.
  - apply accepted_prefix_rejection in Hrej. destruct Hrej as [error Herr].
    unfold Migrate.migrateData, Db.try_catch, Db.bind. rewrite Hread.
    cbn [Db.await Db.ret]. rewrite insertRoadData_run, load_transaction_run.
    rewrite Herr. eexists. split; [reflexivity |].
    cbn [Db.road_segments Db.snapshot]. unfold Db.committed.
    rewrite Hfresh. split; reflexivity.
Qed.

Lemma failed_migration_exits_1_witness :
  Db.snapshot Sample.one_row = None
  /\ exists st',
       Migrate.migrateData Sample.varchar_rejects
         (Some (Sample.file_of [Sample.complete; Sample.long_route]))
         Sample.one_row
       = (Db.Ok (Migrate.Exit 1), st')
       /\ Db.road_segments st' = Db.road_segments Sample.one_row.
Proof.
  split; [reflexivity |].
  assert (Hread : Migrate.processCSV
                    (Sample.file_of [Sample.complete; Sample.long_route])
                  = Csv.Resolved
                      (map Csv.cleanData [Sample.complete; Sample.long_route]))
    by (vm_compute; reflexivity).
  assert (Hrej : Exists (fun row => Sample.varchar_rejects (Migrate.values row)
                                    <> None)
                        (map Csv.cleanData [Sample.complete; Sample.long_route])).
  { right. left. vm_compute. discriminate. }
  destruct (failed_migration_exits_1 Sample.varchar_rejects _ Sample.one_row
              eq_refl
              (or_intror (or_intror
                 (ex_intro _ _ (ex_intro _ _
                    (conj eq_refl (conj Hread Hrej)))))))
    as [st' [Hrun [Hrows _]]].
  exists st'. split; assumption.
Defined.

(** X5: the additional attributes that [insertRoadData] passes with a
    row carry nothing of the CSV beyond two columns: under every key
    other than [nhs_ind] and [surface_year] the value is the empty
    string, whatever the row. *)
Theorem additional_attrs_are_empty
    (row : Csv.clean_row) (key : string) (value : Csv.value) :
  In (key, value) (Db.additional_attrs_of row) ->
  key <> "nhs_ind" ->
  key <> "surface_year" ->
  value = Csv.VStr EmptyString.
Proof.
  intros Hin Hnhs Hyear. unfold Db.additional_attrs_of in Hin.
  apply in_map_iff in Hin. destruct Hin as [k [Hpair Hkey]].
  inversion Hpair; subst key value. clear Hpair.
  assert (Hcheck :
            forallb
              (fun k =>
                 String.eqb k "nhs_ind" || String.eqb k "surface_year"
                 || match Db.property_column k with
                    | None => true
                    | Some _ => false
                    end)
              Db.additional_keys = true) by (vm_compute; reflexivity).
  rewrite forallb_forall in Hcheck. specialize (Hcheck k Hkey).
  destruct (String.eqb_spec k "nhs_ind") as [E | _]; [contradiction |].
  destruct (String.eqb_spec k "surface_year") as [E | _]; [contradiction |].
  cbn [orb] in Hcheck. unfold Db.property.
  destruct (Db.property_column k); [discriminate | reflexivity].
Qed.

Lemma additional_attrs_are_empty_witness :
  In ("bike_lane", Csv.VStr EmptyString)
     (Db.additional_attrs_of (Csv.cleanData Sample.complete))
  /\ Csv.VStr EmptyString = Csv.VStr EmptyString.
Proof.
  assert (Hin : In ("bike_lane", Csv.VStr EmptyString)
                   (Db.additional_attrs_of (Csv.cleanData Sample.complete))).
  { unfold Db.additional_attrs_of. apply in_map_iff.
    exists "bike_lane". split; [reflexivity |].
    now left. }
  split; [exact Hin |].
  refine (additional_attrs_are_empty _ "bike_lane" _ Hin _ _); discriminate.
Defined.

(** X6: the cleaning does not tell a numeric cell that reads as zero
    from one that does not read at all: a numeric column holds the
    number read from its cell when that number is truthy, and the
    default of the column otherwise, so an object id of 0 is stored as
    [null]. *)
Theorem cleaning_numeric_cell (data : gmap string string) (c : Csv.column) :
  Csv.kind_of c <> Csv.StrCol ->
  Csv.field c (Csv.cleanData data)
  = if JS.truthy (Csv.parsed c (data !! Csv.header c))
    then Csv.VNum (Csv.parsed c (data !! Csv.header c))
    else Csv.default_of c.
Proof.
  intros Hkind.
  destruct c; try (now contradiction Hkind);
    unfold Csv.parsed, Csv.default_of; cbn [Csv.kind_of Csv.header];
    unfold Csv.field, Csv.cleanData;
    cbn [Csv.objectid Csv.seg_lngth_feet Csv.lane_cnt Csv.total_width
         Csv.rough_indx Csv.frictn_coeff Csv.cur_aadt Csv.x_value_bgn
         Csv.y_value_bgn Csv.x_value_end Csv.y_value_end Csv.segment_miles
         Csv.lane_miles Csv.surface_year];
    unfold JS.or_num, JS.or_null;
    match goal with
    | |- context [JS.truthy ?n] => destruct (JS.truthy n)
    end; reflexivity.
Qed.

Lemma cleaning_numeric_cell_witness :
  Csv.kind_of Csv.OBJECTID <> Csv.StrCol
  /\ Csv.field Csv.OBJECTID (Csv.cleanData Cases.zeros) = Csv.VNull.
Proof.
  assert (H : Csv.kind_of Csv.OBJECTID <> Csv.StrCol) by discriminate.
  split; [exact H |].
  exact (cleaning_numeric_cell Cases.zeros Csv.OBJECTID H).
Defined.

(** ** Queries of the API *)

Lemma write_conditions_shape (cs1 cs2 : list Server.condition) (n : nat) :
  map (fun c => (Server.on c, Server.op c)) cs1
  = map (fun c => (Server.on c, Server.op c)) cs2 ->
  Server.write_conditions cs1 n = Server.write_conditions cs2 n.
Proof.
  revert cs2 n. induction cs1 as [|c1 cs1 IH]; intros [|c2 cs2] n H;
    try discriminate; [reflexivity |].
  cbn [map] in H. inversion H as [[Hon Hop Hrest]].
  cbn [Server.write_conditions]. rewrite Hon, Hop. now rewrite (IH cs2).
Qed.

Lemma supplied_length (c : Csv.column) (o : Server.comparison_op)
    (v : option Req.qval) :
  (length (Server.supplied c o v) <= 1)%nat.
Proof.
  unfold Server.supplied. destruct v as [x|]; [destruct (Req.truthy x) |];
    cbn; lia.
Qed.

(** X7: in the query of [GET /api/roads] the parameters are as many as
    the placeholders: one for each supplied filter, then the limit and
    the offset, between two and eight in all. *)
Theorem roads_query_parameters (q : Req.roads) :
  length (Server.params (Server.roads_query q))
  = Server.paramCount (Server.roads_query q)
  /\ Server.paramCount (Server.roads_query q)
     = (length (Cases.shape q) + 2)%nat
  /\ (2 <= Server.paramCount (Server.roads_query q) <= 8)%nat.
Proof.
  rewrite <- write_select_query. unfold Server.write_select, Cases.shape.
  cbn [Server.params Server.paramCount]. rewrite length_app, !length_map.
  cbn [length]. split; [lia |]. split; [lia |].
  cbn [Server.roads_select Server.conditions]. rewrite !length_app.
  pose proof (supplied_length Csv.FAC_TYPE Server.OpEq (Req.fac_type q)).
  pose proof (supplied_length Csv.SURF_TYPE Server.OpEq (Req.surf_type q)).
  pose proof (supplied_length Csv.DISTRICT_NO Server.OpEq (Req.district_no q)).
  pose proof (supplied_length Csv.URBAN_RURAL Server.OpEq (Req.urban_rural q)).
  pose proof (supplied_length Csv.ROUGH_INDX Server.OpGe (Req.min_condition q)).
  pose proof (supplied_length Csv.ROUGH_INDX Server.OpLe (Req.max_condition q)).
  lia.
Qed.

(** X8: the text of the query of [GET /api/roads] depends only on which
    filters are supplied: two requests that supply the same filters,
    whatever their values, limits and offsets, pass the same text, and
    the values travel as parameters only. *)
Theorem roads_query_text_ignores_values (q q' : Req.roads) :
  Cases.shape q = Cases.shape q' ->
  Server.query (Server.roads_query q) = Server.query (Server.roads_query q').
Proof.
  intros Hshape. rewrite <- !write_select_query. unfold Server.write_select.
  cbn [Server.query].
  rewrite (write_conditions_shape _ _ 0 Hshape).
  assert (Hlen : length (Server.conditions (Server.roads_select q))
                 = length (Server.conditions (Server.roads_select q'))).
  { unfold Cases.shape in Hshape.
    rewrite <- (length_map (fun c => (Server.on c, Server.op c))), Hshape.
    apply length_map. }
  now rewrite Hlen.
Qed.

Lemma roads_query_text_ignores_values_witness :
  Cases.shape Sample.two_filters = Cases.shape Cases.other_values
  /\ Server.query (Server.roads_query Cases.other_values)
     = Server.select_roads
       ++ " AND fac_type = $1 AND surf_type = $2 LIMIT $3 OFFSET $4".
Proof.
  assert (H : Cases.shape Sample.two_filters = Cases.shape Cases.other_values)
    by reflexivity.
  split; [exact H |].
  rewrite <- (roads_query_text_ignores_values _ _ H). reflexivity.
Defined.

Lemma filter_clause_given (v : option Req.qval) (clause : string)
    (b : Server.builder) :
  Server.filter_clause (Cases.given v) clause b = Server.filter_clause v clause b.
Proof.
  unfold Server.filter_clause, Cases.given.
  destruct v as [x|]; [| reflexivity].
  destruct (Req.truthy x) eqn:E; [now rewrite E | reflexivity].
Qed.

Lemma supplied_given (c : Csv.column) (o : Server.comparison_op)
    (v : option Req.qval) :
  Server.supplied c o (Cases.given v) = Server.supplied c o v.
Proof.
  unfold Server.supplied, Cases.given.
  destruct v as [x|]; [| reflexivity].
  destruct (Req.truthy x) eqn:E; [now rewrite E | reflexivity].
Qed.

(** X9: a filter of [GET /api/roads] that is supplied as the empty
    string is no filter: the request passes the same text and
    parameters, and gets the same response, as the request without
    it. *)
Theorem roads_empty_filter_is_no_filter
    (numeric_in : string -> option JS.number)
    (array_text : list string -> string)
    (connection_error : option string)
    (q : Req.roads) (st : Db.state) :
  Server.roads_query (Cases.without_empty q) = Server.roads_query q
  /\ Server.roads numeric_in array_text connection_error
       (Cases.without_empty q) st
     = Server.roads numeric_in array_text connection_error q st.
Proof.
  split.
  - unfold Server.roads_query, Cases.without_empty.
    cbn [Req.fac_type Req.surf_type Req.district_no Req.urban_rural
         Req.min_condition Req.max_condition Req.limit Req.offset].
    now rewrite !filter_clause_given.
  - unfold Server.roads. f_equal. unfold Server.roads_select, Cases.without_empty.
    cbn [Req.fac_type Req.surf_type Req.district_no Req.urban_rural
         Req.min_condition Req.max_condition Req.limit Req.offset].
    now rewrite !supplied_given.
Qed.

(** X10: a heat-map request whose [data_source] is anything but the
    string ['osm'] is served from [road_segments], as the request with
    no [data_source] is. *)
Theorem heatmap_other_source_is_csv
    (connection_error : option string) (current_year : Z)
    (type : option Req.qval) (data_source : Req.qval)
    (st : Db.state) (osm_roads : list Server.osm_road) :
  Req.strict_eq data_source "osm" = false ->
  let other := {| Req.type := type; Req.data_source := Some data_source |} in
  let absent := {| Req.type := type; Req.data_source := None |} in
  Server.heatmap_query other = Server.heatmap_query absent
  /\ Server.heatmap connection_error current_year other st osm_roads
     = Server.heatmap connection_error current_year absent st osm_roads.
Proof.
  intros Hosm. cbv zeta.
  assert (Hsel : Server.heatmap_select
                   {| Req.type := type; Req.data_source := Some data_source |}
                 = Server.heatmap_select
                     {| Req.type := type; Req.data_source := None |}).
  { unfold Server.heatmap_select.
    cbn [Req.type Req.data_source Server.or_default]. rewrite Hosm.
    reflexivity. }
  split.
  - rewrite <- !write_heat_query. now rewrite Hsel.
  - unfold Server.heatmap. now rewrite Hsel.
Qed.

Lemma heatmap_other_source_is_csv_witness :
  Req.strict_eq (Req.QStr "OSM") "osm" = false
  /\ Server.heatmap_query
       {| Req.type := Some (Req.QStr "traffic");
          Req.data_source := Some (Req.QStr "OSM") |}
     = Server.csv_traffic.
Proof.
  split; [reflexivity |].
  rewrite (proj1 (heatmap_other_source_is_csv None 2025
                    (Some (Req.QStr "traffic")) (Req.QStr "OSM")
                    Sample.three_rows Sample.osm_sample eq_refl)).
  reflexivity.
Defined.

Lemma unreadable_metric_is_zero (data : gmap string string)
    (type : string) (c : Csv.column) :
  In (type, c) Cases.metrics ->
  Csv.unreadable data c ->
  Csv.field c (Csv.cleanData data) = Csv.VNum JS.zero.
Proof.
  intros [H | [H | [H | []]]] Hcell; inversion H; subst type c;
    unfold Csv.unreadable, Csv.parsed in Hcell;
    cbn [Csv.kind_of Csv.header] in Hcell;
    unfold Csv.field, Csv.cleanData;
    cbn [Csv.rough_indx Csv.cur_aadt Csv.surface_year];
    rewrite Hcell; reflexivity.
Qed.

Lemma metric_select (type : string) (c : Csv.column) :
  In (type, c) Cases.metrics ->
  Server.heatmap_select
    {| Req.type := Some (Req.QStr type); Req.data_source := None |}
  = Server.FromSegments c
      match c with
      | Csv.SURFACE_YEAR => true
      | _ => false
      end.
Proof.
  intros [H | [H | [H | []]]]; inversion H; reflexivity.
Qed.

(** X11: a stored row whose cell for the metric could not be read, and
    was cleaned to zero, gives no point to the heat map of that metric
    over [road_segments]: the response is the one of the table without
    the row.  This holds for the roughness index under [condition], the
    traffic count under [traffic] and the surface year under [age]. *)
Theorem heat_map_skips_unreadable_cells
    (current_year : Z) (type : string) (c : Csv.column)
    (data : gmap string string) (s : Db.segment)
    (before after : list Db.segment) (osm_roads : list Server.osm_road) :
  In (type, c) Cases.metrics ->
  Db.attrs s = Csv.cleanData data ->
  Csv.unreadable data c ->
  let q := {| Req.type := Some (Req.QStr type); Req.data_source := None |} in
  Server.heatmap None current_year q
    (Cases.table (before ++ s :: after)) osm_roads
  = Server.heatmap None current_year q
      (Cases.table (before ++ after)) osm_roads.
Proof.
  intros Hmetric Hattrs Hcell. cbv zeta. unfold Server.heatmap.
  rewrite (metric_select type c Hmetric). unfold Server.run_heat.
  cbn [Db.committed Cases.table Db.snapshot Db.road_segments].
  rewrite !List.filter_app. cbn [List.filter].
  rewrite Hattrs, (unreadable_metric_is_zero data type c Hmetric Hcell).
  reflexivity.
Qed.

Lemma heat_map_skips_unreadable_cells_witness :
  let s := {| Db.id := 7;
              Db.stored := Server.values
                             (Csv.cleanData Cases.unreadable_numbers) |} in
  In ("age", Csv.SURFACE_YEAR) Cases.metrics
  /\ Csv.unreadable Cases.unreadable_numbers Csv.SURFACE_YEAR
  /\ Server.heatmap None 2025
       {| Req.type := Some (Req.QStr "age"); Req.data_source := None |}
       (Cases.table ([Sample.row_1] ++ s :: [])) Sample.osm_sample
     = Server.heatmap None 2025
         {| Req.type := Some (Req.QStr "age"); Req.data_source := None |}
         (Cases.table ([Sample.row_1] ++ [])) Sample.osm_sample.
Proof.
  cbv zeta.
  assert (Hin : In ("age", Csv.SURFACE_YEAR) Cases.metrics)
    by (right; right; now left).
  assert (Hcell : Csv.unreadable Cases.unreadable_numbers Csv.SURFACE_YEAR)
    by reflexivity.
  split; [exact Hin | split; [exact Hcell |]].
  exact (heat_map_skips_unreadable_cells 2025 "age" Csv.SURFACE_YEAR
           Cases.unreadable_numbers
           {| Db.id := 7;
              Db.stored := Server.values
                             (Csv.cleanData Cases.unreadable_numbers) |}
           [Sample.row_1] [] Sample.osm_sample Hin eq_refl Hcell).
Defined.

(** ** The list of OSM roads *)

(** X12: the text of the query of [GET /api/osm-roads] is one of two
    fixed texts, chosen by whether [highway] is truthy; the values of
    the request travel as parameters only: the state, or ['PA'] when
    it is absent, then the highway if supplied, then the limit and the
    offset. *)
Theorem osm_roads_query_is_parameterized (q : OsmApi.request) :
  OsmApi.osm_roads_query q = OsmApi.write_select (OsmApi.osm_roads_select q)
  /\ length (Server.params (OsmApi.osm_roads_query q))
     = Server.paramCount (OsmApi.osm_roads_query q)
  /\ (Server.query (OsmApi.osm_roads_query q)
      = OsmApi.select_osm_roads ++ " LIMIT $2 OFFSET $3"
      \/ Server.query (OsmApi.osm_roads_query q)
         = OsmApi.select_osm_roads ++ " AND highway = $2 LIMIT $3 OFFSET $4").
Proof.
  assert (H : OsmApi.osm_roads_query q
              = OsmApi.write_select (OsmApi.osm_roads_select q)).
  { unfold OsmApi.osm_roads_query, OsmApi.write_select,
      OsmApi.osm_roads_select, Server.filter_clause.
    cbn [OsmApi.of_highway OsmApi.in_state OsmApi.row_limit OsmApi.row_offset].
    destruct (OsmApi.highway q) as [h|]; [destruct (Req.truthy h) |];
      reflexivity. }
  split; [exact H |]. rewrite H. unfold OsmApi.write_select.
  destruct (OsmApi.of_highway (OsmApi.osm_roads_select q));
    (split; [reflexivity |]); [now right | now left].
Qed.


(** X13: for a request whose [limit] and [offset] read as the row
    counts [l] and [o], on a reachable database, [GET /api/osm-roads]
    answers with at most [l] rows; each of them is of the requested
    state, which is ['PA'] only when no state is given, and of the
    requested highway type when one is supplied. *)
Theorem osm_roads_rows
    (array_text : list string -> string)
    (q : OsmApi.request) (table : list OsmApi.osm_row) (l o : nat) :
  JS.parseInt_str (Server.text_or "10000" (OsmApi.limit q))
  = JS.Dec (Z.of_nat l) 0 ->
  (Z.of_nat l < 2 ^ 63)%Z ->
  JS.parseInt_str (Server.text_or "0" (OsmApi.offset q))
  = JS.Dec (Z.of_nat o) 0 ->
  (Z.of_nat o < 2 ^ 63)%Z ->
  exists rows,
    OsmApi.osm_roads array_text None q table
    = {| Server.status := 200; Server.json := inl rows |}
    /\ (length rows <= l)%nat
    /\ Forall
         (fun r =>
            In r table
            /\ Server.state_code (OsmApi.road r)
               = Some (Server.sent array_text
                         match OsmApi.state q with
                         | Some v => v
                         | None => Req.QStr "PA"
                         end)
            /\ match OsmApi.highway q with
               | Some h =>
                   Req.truthy h = true ->
                   OsmApi.highway_tag r = Some (Server.sent array_text h)
               | None => True
               end)
         rows.
Proof.
  intros Hl Hlmax Ho Homax. unfold OsmApi.osm_roads, OsmApi.run_select.
  cbn [OsmApi.osm_roads_select OsmApi.row_limit OsmApi.row_offset].
  rewrite Hl, Ho, !row_count_of_nat by assumption.
  eexists. split; [reflexivity |]. split; [apply firstn_le_length |].
  apply List.Forall_forall. intros r Hr. apply In_firstn_skipn in Hr.
  apply filter_In in Hr. destruct Hr as [Hin Hmatch]. split; [exact Hin |].
  unfold OsmApi.matches, OsmApi.osm_roads_select in Hmatch.
  cbn [OsmApi.in_state OsmApi.of_highway] in Hmatch.
  apply andb_true_iff in Hmatch.
  destruct Hmatch as [Hstate Hhighway]. split.
  - unfold OsmApi.text_is in Hstate.
    destruct (Server.state_code (OsmApi.road r)) as [code|]; [| discriminate].
    apply String.eqb_eq in Hstate. rewrite Hstate. unfold Server.or_default.
    reflexivity.
  - destruct (OsmApi.highway q) as [h|]; [| exact I].
    intros Htruthy. rewrite Htruthy in Hhighway.
    unfold OsmApi.text_is in Hhighway.
    destruct (OsmApi.highway_tag r) as [tag|]; [| discriminate].
    apply String.eqb_eq in Hhighway. now rewrite Hhighway.
Qed.

Lemma osm_roads_rows_witness :
  JS.parseInt_str (Server.text_or "10000" (OsmApi.limit Cases.osm_motorways))
  = JS.Dec (Z.of_nat 10) 0
  /\ exists rows,
       OsmApi.osm_roads Sample.braces None Cases.osm_motorways Cases.osm_rows
       = {| Server.status := 200; Server.json := inl rows |}
       /\ (length rows <= 10)%nat.
Proof.
  split; [reflexivity |].
  destruct (osm_roads_rows Sample.braces Cases.osm_motorways Cases.osm_rows
              10 0 eq_refl eq_refl eq_refl eq_refl)
    as [rows [Hrun [Hlen _]]].
  exists rows. split; assumption.
Defined.

Example osm_roads_motorways :
  OsmApi.osm_roads Sample.braces None Cases.osm_motorways Cases.osm_rows
  = {| Server.status := 200;
       Server.json := inl (firstn 2 Cases.osm_rows) |}.
Proof. vm_compute. reflexivity. Qed.



(** ** The map *)

Lemma truthy_received (n : JS.number) :
  Client.truthy_number (Client.received n) = JS.truthy n && Client.finite n.
Proof.
  unfold Client.finite, Client.truthy_number.
  destruct (Client.received n) as [m|] eqn:E.
  - assert (m = n).
    { unfold Client.received in E. destruct n as [| neg | a b];
        try discriminate. destruct (Client.overflows a b);
        [discriminate | congruence]. }
    subst m. now rewrite andb_true_r.
  - now rewrite andb_false_r.
Qed.

(** X15: the map draws a row of [GET /api/roads] exactly when its four
    coordinates are non-zero and finite: the guard of [RoadLayer] is the
    guard of [processCSV] in the migration script, so a row that the
    server's loader stored with a zero end coordinate is returned by the
    API and silently left out of the map. *)
Theorem map_draws_complete_rows (s : Db.segment) :
  Client.draws_segment s
  = Migrate.keep (Db.attrs s)
    && (Client.finite (Csv.x_value_bgn (Db.attrs s))
        && Client.finite (Csv.y_value_bgn (Db.attrs s))
        && Client.finite (Csv.x_value_end (Db.attrs s))
        && Client.finite (Csv.y_value_end (Db.attrs s))).
Proof.
  unfold Client.draws_segment, Client.draws, Migrate.keep.
  rewrite !truthy_received.
  destruct (JS.truthy (Csv.x_value_bgn (Db.attrs s)));
    destruct (JS.truthy (Csv.y_value_bgn (Db.attrs s)));
    destruct (JS.truthy (Csv.x_value_end (Db.attrs s)));
    destruct (JS.truthy (Csv.y_value_end (Db.attrs s)));
    destruct (Client.finite (Csv.x_value_bgn (Db.attrs s)));
    destruct (Client.finite (Csv.y_value_bgn (Db.attrs s)));
    destruct (Client.finite (Csv.x_value_end (Db.attrs s)));
    destruct (Client.finite (Csv.y_value_end (Db.attrs s)));
    reflexivity.
Qed.

Example map_skips_zero_end :
  let s := {| Db.id := 1;
              Db.stored := Server.values (Csv.cleanData Sample.zero_end) |} in
  Server.keep (Db.attrs s) = true /\ Client.draws_segment s = false.
Proof. vm_compute. split; reflexivity. Qed.

Ltac split_cases :=
  repeat match goal with
         | |- context [Client.equals ?v ?s] =>
             destruct (Client.equals v s); cbn [orb]
         end.

(** With a truthy [highway] the colour is decided by the highway type
    alone. *)
Lemma highway_decides_colour
    (facType surfType facType' surfType' highway : Client.text) :
  Client.truthy_text highway = true ->
  Client.getRoadClassificationColor facType surfType highway
  = Client.getRoadClassificationColor facType' surfType' highway.
Proof.
  intros H. unfold Client.getRoadClassificationColor. now rewrite H.
Qed.

Lemma highway_decides_colour_witness :
  Client.truthy_text (Client.Str "trunk_link") = true
  /\ Client.getRoadClassificationColor (Client.Str "1") (Client.Str "61")
       (Client.Str "trunk_link")
     = "#00aa00".
Proof.
  split; [reflexivity |].
  rewrite (highway_decides_colour (Client.Str "1") (Client.Str "61")
             Client.Undefined Client.Undefined (Client.Str "trunk_link")
             eq_refl).
  reflexivity.
Defined.

(** X16: the colour of a row is always one of the six colours of the
    legend or the dark gray ["#666666"].  A row with no truthy [highway]
    (a row of the CSV) always gets a colour of the legend; for a row
    with a truthy [highway] the colour is decided by the highway type
    alone, whatever its facility type and surface type. *)
Theorem colour_is_in_palette (facType surfType highway : Client.text) :
  In (Client.getRoadClassificationColor facType surfType highway)
     ("#666666" :: Client.legend)
  /\ (Client.truthy_text highway = false ->
      In (Client.getRoadClassificationColor facType surfType highway)
         Client.legend)
  /\ (Client.truthy_text highway = true ->
      forall facType' surfType',
        Client.getRoadClassificationColor facType surfType highway
        = Client.getRoadClassificationColor facType' surfType' highway).
Proof.
  split; [| split].
  - unfold Client.getRoadClassificationColor, Client.legend.
    destruct (Client.truthy_text highway); split_cases; cbn; tauto.
  - intros H. unfold Client.getRoadClassificationColor, Client.legend.
    rewrite H. split_cases; cbn; tauto.
  - intros H facType' surfType'.
    unfold Client.getRoadClassificationColor. now rewrite H.
Qed.

Lemma name_in_truthy (types : list (string * string)) (key : string) :
  Client.truthy_shown (Client.name_in types key) = true.
Proof.
  unfold Client.name_in.
  destruct (Client.own types key) as [v|].
  - destruct (JS.truthy_str v) eqn:E; [exact E | reflexivity].
  - destruct (existsb (String.eqb key) Client.object_prototype); reflexivity.
Qed.

(** X17: the popup never shows the highway type or the surface tag of a
    row: the facility line and the surface line are always what
    [getFacilityTypeName] and [getSurfaceTypeName] return, which is
    never falsy, so a row with no facility type (a row of OSM) reads
    ["Unknown"] whatever its highway type. *)
Theorem popup_names_hide_tags (fac_type surf_type highway surface : Client.text) :
  Client.facility_line fac_type highway = Client.getFacilityTypeName fac_type
  /\ Client.surface_line surf_type surface
     = Client.getSurfaceTypeName surf_type
  /\ Client.facility_line Client.Undefined highway = Client.Text "Unknown"
  /\ Client.surface_line Client.Undefined surface = Client.Text "Unknown".
Proof.
  assert (Hfac : forall f h,
             Client.facility_line f h = Client.getFacilityTypeName f).
  { intros f h. unfold Client.facility_line, Client.or_else,
      Client.getFacilityTypeName. now rewrite name_in_truthy. }
  assert (Hsurf : forall f h,
             Client.surface_line f h = Client.getSurfaceTypeName f).
  { intros f h. unfold Client.surface_line, Client.or_else,
      Client.getSurfaceTypeName. now rewrite name_in_truthy. }
  split; [apply Hfac |]. split; [apply Hsurf |].
  split; [rewrite Hfac | rewrite Hsurf]; reflexivity.
Qed.

(** ** The block reader *)

Section Varint.

Import Pbf.
Local Open Scope Z_scope.

Lemma low7_bounds (b : Byte.byte) : 0 <= Z.land (byte_value b) 127 < 128.
Proof.
  change 127 with (Z.ones 7). rewrite Z.land_ones by lia.
  change 128 with (2 ^ 7). apply Z.mod_pos_bound. lia.
Qed.

Lemma lor_shifted (a b s : Z) :
  0 <= s -> 0 <= a < 2 ^ s -> Z.lor a (b * 2 ^ s) = a + b * 2 ^ s.
Proof.
  intros Hs Ha.
  assert (Hdisjoint : Z.land a (b * 2 ^ s) = 0).
  { apply Z.bits_inj'. intros i Hi. rewrite Z.land_spec, Z.bits_0.
    destruct (Z.lt_ge_cases i s) as [Hlt | Hge].
    - rewrite (Z.mul_pow2_bits_low b s i Hlt). apply andb_false_r.
    - rewrite <- (Z.mod_small a (2 ^ s)) by lia.
      rewrite Z.mod_pow2_bits_high by lia. reflexivity. }
  rewrite (Z.add_nocarry_lxor _ _ Hdisjoint). symmetry.
  now apply Z.lxor_lor.
Qed.

Lemma to_int32_small (z : Z) : 0 <= z < 2 ^ 31 -> to_int32 z = z.
Proof.
  intros H. unfold to_int32. rewrite Z.mod_small; lia.
Qed.

(** One step of the loop adds the seven low bits of the byte at the
    current shift, as long as the sum stays below [2^31]. *)
Lemma lor_group (result low shift : Z) :
  0 <= shift -> 0 <= result < 2 ^ shift -> 0 <= low ->
  result + low * 2 ^ shift < 2 ^ 31 ->
  Z.lor result (shl low shift) = result + low * 2 ^ shift.
Proof.
  intros Hshift Hresult Hlow Hsum. unfold shl.
  destruct (Z.eq_dec low 0) as [-> | Hpos].
  - rewrite !Z.mul_0_l. change (to_int32 0) with 0.
    rewrite Z.lor_0_r. lia.
  - assert (Hsmall : shift < 31).
    { destruct (Z.lt_ge_cases shift 31) as [H | H]; [exact H |].
      assert (2 ^ 31 <= 2 ^ shift) by (apply Z.pow_le_mono_r; lia).
      nia. }
    rewrite (Z.mod_small shift 32) by lia.
    rewrite to_int32_small by nia.
    now apply lor_shifted.
Qed.

Lemma readVarint_loop_value (bytes rest : list Byte.byte)
    (result shift : Z) (pos : nat) :
  is_varint bytes = true ->
  0 <= shift -> 0 <= result < 2 ^ shift ->
  result + varint_value bytes * 2 ^ shift < 2 ^ 31 ->
  readVarint_loop (bytes ++ rest) result shift pos
  = (result + varint_value bytes * 2 ^ shift, (pos + length bytes)%nat).
Proof.
  revert result shift pos.
  induction bytes as [|b bytes IH]; intros result shift pos Hvar Hshift Hres Hsum;
    [discriminate |].
  pose proof (low7_bounds b) as Hlow.
  assert (Hrest : 0 <= varint_value bytes).
  { clear. induction bytes as [|c bytes IHb]; cbn [varint_value]; [lia |].
    pose proof (low7_bounds c). lia. }
  cbn [varint_value] in Hsum |- *.
  assert (Hpow : 2 ^ (shift + 7) = 128 * 2 ^ shift)
    by (rewrite Z.pow_add_r by lia; lia).
  assert (Hstep : Z.lor result (shl (Z.land (byte_value b) 127) shift)
                  = result + Z.land (byte_value b) 127 * 2 ^ shift).
  { apply lor_group; (lia || nia). }
  cbn [app readVarint_loop]. cbv zeta. rewrite Hstep.
  destruct bytes as [|c bytes].
  - cbn [is_varint] in Hvar. rewrite Hvar. cbn [varint_value length].
    f_equal; lia.
  - change (is_varint (b :: c :: bytes))
      with (negb (Z.land (byte_value b) 128 =? 0) && is_varint (c :: bytes))%bool
      in Hvar.
    apply andb_true_iff in Hvar. destruct Hvar as [Hhigh Hvar].
    apply negb_true_iff in Hhigh. rewrite Hhigh.
    change ((c :: bytes) ++ rest)%list with ((c :: bytes) ++ rest)%list.
    rewrite (IH _ (shift + 7) (S pos) Hvar) by (try lia; nia).
    f_equal; [rewrite Hpow; lia | cbn [length]; lia].
Qed.

Lemma readVarint_loop_position (rest : list Byte.byte)
    (result shift : Z) (pos : nat) :
  (pos <= snd (readVarint_loop rest result shift pos) <= pos + length rest)%nat
  /\ (rest <> [] -> (pos < snd (readVarint_loop rest result shift pos))%nat).
Proof.
  revert result shift pos.
  induction rest as [|b rest IH]; intros result shift pos; cbn [readVarint_loop].
  - cbn. split; [lia | congruence].
  - cbv zeta. destruct (Z.land (byte_value b) 128 =? 0).
    + cbn [snd length]. split; [lia | intros _; lia].
    + specialize (IH (Z.lor result (shl (Z.land (byte_value b) 127) shift))
                     (shift + 7) (S pos)).
      cbn [length]. split; [lia | intros _; lia].
Qed.

End Varint.

Lemma readVarint_position (p : Pbf.parser) :
  (Pbf.position p < length (Pbf.buffer p))%nat ->
  (Pbf.position p < Pbf.position (snd (Pbf.readVarint p))
   <= length (Pbf.buffer p))%nat
  /\ Pbf.buffer (snd (Pbf.readVarint p)) = Pbf.buffer p
  /\ Pbf.nodes (snd (Pbf.readVarint p)) = Pbf.nodes p
  /\ Pbf.ways (snd (Pbf.readVarint p)) = Pbf.ways p.
Proof.
  intros Hpos. unfold Pbf.readVarint.
  pose proof (readVarint_loop_position
                (skipn (Pbf.position p) (Pbf.buffer p)) 0 0 (Pbf.position p))
    as [Hbound Hstrict].
  destruct (Pbf.readVarint_loop (skipn (Pbf.position p) (Pbf.buffer p)) 0 0
              (Pbf.position p)) as [v pos'].
  cbn [snd Pbf.at_position Pbf.position Pbf.buffer Pbf.nodes Pbf.ways] in *.
  rewrite length_skipn in Hbound.
  assert (Hne : skipn (Pbf.position p) (Pbf.buffer p) <> []).
  { intros E. apply (f_equal (@length _)) in E.
    rewrite length_skipn in E. cbn in E. lia. }
  specialize (Hstrict Hne). repeat split; lia.
Qed.

(** What [readBlock] does to the parser when bytes are left. *)
Lemma readBlock_advances (p : Pbf.parser) :
  (Pbf.position p < length (Pbf.buffer p))%nat ->
  (Pbf.position p < Pbf.position (snd (Pbf.readBlock p))
   <= length (Pbf.buffer p))%nat
  /\ Pbf.buffer (snd (Pbf.readBlock p)) = Pbf.buffer p
  /\ Pbf.nodes (snd (Pbf.readBlock p)) = Pbf.nodes p
  /\ Pbf.ways (snd (Pbf.readBlock p)) = Pbf.ways p.
Proof.
  intros Hpos. unfold Pbf.readBlock.
  destruct (Nat.leb_spec (length (Pbf.buffer p)) (Pbf.position p)); [lia |].
  pose proof (readVarint_position p Hpos) as [Hbound [Hbuf [Hnodes Hways]]].
  destruct (Pbf.readVarint p) as [blockSize p1]. cbn [snd] in *.
  destruct (Z.leb_spec blockSize 0) as [Hsize | Hsize]; cbn [orb].
  - cbn [snd]. repeat split; (lia || assumption).
  - destruct (Z.ltb_spec (Z.of_nat (length (Pbf.buffer p1)))
                (Z.of_nat (Pbf.position p1) + blockSize)) as [Hbig | Hfit].
    + cbn [snd]. repeat split; (lia || assumption).
    + cbn [snd Pbf.at_position Pbf.position Pbf.buffer Pbf.nodes Pbf.ways].
      rewrite Hbuf in Hfit. repeat split; (lia || assumption).
Qed.

(** X18: [readVarint] reads a varint as the number its groups of seven
    bits write, least significant group first, and leaves the position
    just after it, provided the number is below [2^31]. *)
Theorem readVarint_reads_groups
    (before bytes after : list Byte.byte)
    (nodes : gmap Z unit) (ways : list unit) :
  Pbf.is_varint bytes = true ->
  (Pbf.varint_value bytes < 2 ^ 31)%Z ->
  let p := {| Pbf.buffer := before ++ bytes ++ after;
              Pbf.position := length before;
              Pbf.nodes := nodes; Pbf.ways := ways |} in
  Pbf.readVarint p
  = (Pbf.varint_value bytes,
     Pbf.at_position p (length before + length bytes)).
Proof.
  intros Hvar Hsmall. cbv zeta. unfold Pbf.readVarint.
  cbn [Pbf.position Pbf.buffer].
  rewrite skipn_app, skipn_all, Nat.sub_diag, skipn_O. cbn [app].
  rewrite (readVarint_loop_value bytes after 0 0 (length before) Hvar);
    [| lia | cbn; lia | cbn; lia].
  cbn [Z.pow]. rewrite Z.mul_1_r. reflexivity.
Qed.

Lemma readVarint_reads_groups_witness :
  Pbf.is_varint [Byte.xac; Byte.x02] = true
  /\ fst (Pbf.readVarint
            {| Pbf.buffer := [] ++ [Byte.xac; Byte.x02] ++ [Byte.x07];
               Pbf.position := 0; Pbf.nodes := ∅; Pbf.ways := [] |})
     = 300%Z.
Proof.
  split; [reflexivity |].
  rewrite (readVarint_reads_groups [] [Byte.xac; Byte.x02] [Byte.x07] ∅ []
             eq_refl eq_refl).
  reflexivity.
Defined.

(** X19: while bytes are left, [readBlock] moves the position forward
    and never past the end of the buffer; a block that it returns is
    not empty and is exactly the bytes between the end of its length
    prefix and the new position. *)
Theorem readBlock_moves_forward (p : Pbf.parser) :
  (Pbf.position p < length (Pbf.buffer p))%nat ->
  (Pbf.position p < Pbf.position (snd (Pbf.readBlock p))
   <= length (Pbf.buffer p))%nat
  /\ match fst (Pbf.readBlock p) with
     | Some block =>
         (0 < length block)%nat
         /\ block
            = firstn (length block)
                (skipn (Pbf.position (snd (Pbf.readVarint p))) (Pbf.buffer p))
         /\ Pbf.position (snd (Pbf.readBlock p))
            = (Pbf.position (snd (Pbf.readVarint p)) + length block)%nat
     | None => True
     end.
Proof.
  intros Hpos. split; [apply (readBlock_advances p Hpos) |].
  unfold Pbf.readBlock.
  destruct (Nat.leb_spec (length (Pbf.buffer p)) (Pbf.position p)); [lia |].
  pose proof (readVarint_position p Hpos) as [Hbound [Hbuf _]].
  destruct (Pbf.readVarint p) as [blockSize p1]. cbn [snd] in *.
  destruct (Z.leb_spec blockSize 0) as [Hsize | Hsize]; cbn [orb];
    [exact I |].
  destruct (Z.ltb_spec (Z.of_nat (length (Pbf.buffer p1)))
              (Z.of_nat (Pbf.position p1) + blockSize)) as [Hbig | Hfit];
    [exact I |].
  cbn [fst snd Pbf.at_position Pbf.position]. unfold Db.slice.
  replace (Pbf.position p1 + Z.to_nat blockSize - Pbf.position p1)%nat
    with (Z.to_nat blockSize) by lia.
  assert (Hlen : length (firstn (Z.to_nat blockSize)
                           (skipn (Pbf.position p1) (Pbf.buffer p1)))
                 = Z.to_nat blockSize).
  { rewrite length_firstn, length_skipn. lia. }
  rewrite Hlen, Hbuf. repeat split; lia.
Qed.

Lemma readBlock_moves_forward_witness :
  let p := {| Pbf.buffer := Cases.three_bytes; Pbf.position := 2;
              Pbf.nodes := ∅; Pbf.ways := [] |} in
  (Pbf.position p < length (Pbf.buffer p))%nat
  /\ (Pbf.position p < Pbf.position (snd (Pbf.readBlock p))
      <= length (Pbf.buffer p))%nat.
Proof.
  cbv zeta.
  assert (H : (2 < length Cases.three_bytes)%nat) by (cbn; lia).
  split; [exact H |].
  exact (proj1 (readBlock_moves_forward
                  {| Pbf.buffer := Cases.three_bytes; Pbf.position := 2;
                     Pbf.nodes := ∅; Pbf.ways := [] |} H)).
Defined.

Lemma parse_loop_ends (fuel : nat) (p : Pbf.parser) :
  (Pbf.position p <= length (Pbf.buffer p))%nat ->
  (length (Pbf.buffer p) - Pbf.position p < fuel)%nat ->
  exists p',
    Pbf.parse_loop fuel p = Some p'
    /\ Pbf.buffer p' = Pbf.buffer p
    /\ Pbf.position p' = length (Pbf.buffer p)
    /\ Pbf.nodes p' = Pbf.nodes p
    /\ Pbf.ways p' = Pbf.ways p.
Proof.
  revert p. induction fuel as [|fuel IH]; intros p Hle Hfuel; [lia |].
  cbn [Pbf.parse_loop].
  destruct (Nat.ltb_spec (Pbf.position p) (length (Pbf.buffer p)))
    as [Hlt | Hge].
  - pose proof (readBlock_advances p Hlt) as [Hbound [Hbuf [Hnodes Hways]]].
    destruct (Pbf.readBlock p) as [block p1]. cbn [snd] in *.
    assert (Hnext : exists p',
               Pbf.parse_loop fuel p1 = Some p'
               /\ Pbf.buffer p' = Pbf.buffer p1
               /\ Pbf.position p' = length (Pbf.buffer p1)
               /\ Pbf.nodes p' = Pbf.nodes p1
               /\ Pbf.ways p' = Pbf.ways p1).
    { apply IH; rewrite Hbuf; lia. }
    destruct Hnext as [p' [Hrun [Hb [Hp [Hn Hw]]]]].
    exists p'. split; [destruct block; exact Hrun |].
    repeat split; congruence.
  - exists p. repeat split. lia.
Qed.

(** X20: [parse] ends on every file, with every byte consumed, and
    returns no node and no way, whatever the file holds: the blocks
    that the reader frames are never decoded. *)
Theorem parse_returns_nothing (file : list Byte.byte) :
  exists p,
    Pbf.parse file = Some p
    /\ Pbf.nodes p = ∅
    /\ Pbf.ways p = []
    /\ Pbf.position p = length file.
Proof.
  unfold Pbf.parse.
  destruct (parse_loop_ends (S (length file))
              {| Pbf.buffer := file; Pbf.position := 0;
                 Pbf.nodes := ∅; Pbf.ways := [] |})
    as [p [Hrun [_ [Hpos [Hnodes Hways]]]]]; cbn; try lia.
  exists p. repeat split; assumption.
Qed.

Example parse_three_bytes :
  Pbf.position <$> Pbf.parse Cases.three_bytes = Some 3%nat.
Proof. vm_compute. reflexivity. Qed.
